(** * virtio-cryptodev: the guest character device and the QEMU backend

    A shallow embedding of
    - [virtio-cryptodev/guest/crypto-chrdev.c]: the guest driver
      ([crypto_chrdev_open], [crypto_chrdev_release], [crypto_chrdev_ioctl],
      [crypto_chrdev_read]), and
    - [virtio_crypto_device/.../hw/char/virtio-cryptodev.c]: the host
      dispatcher ([vq_handle_output]).

    Guest and host share memory: a region of a request is a pointer to a guest
    kernel object together with a length, and the host reads and writes the
    very same object.  Kernel objects are the cells of a finite map; the cell
    types follow the C types the two sides cast the region to. *)

From Stdlib Require Import Strings.String Strings.Byte.
From stdpp Require Import gmap list option.
Open Scope Z_scope.

(** ** Constants of headers outside the two source files *)

(** The guest includes [crypto.h] (the VIRTIO_CRYPTODEV_SYSCALL macros), the
    host includes [hw/virtio/virtio-cryptodev.h] (the
    VIRTIO_CRYPTODEV_SYSCALL_TYPE macros), and both include [cryptodev.h] (the
    CIOC commands, [struct session_op]).  Their values
    are parameters.  The laws are what the code needs to be a protocol at all:
    the labels of one C [switch] are pairwise distinct, the two spellings of a
    syscall type denote the same number, and [sizeof] is positive. *)
Class Headers := {
  VIRTIO_CRYPTODEV_SYSCALL_OPEN : Z;
  VIRTIO_CRYPTODEV_SYSCALL_CLOSE : Z;
  VIRTIO_CRYPTODEV_SYSCALL_IOCTL : Z;
  VIRTIO_CRYPTODEV_SYSCALL_TYPE_OPEN : Z;
  VIRTIO_CRYPTODEV_SYSCALL_TYPE_CLOSE : Z;
  VIRTIO_CRYPTODEV_SYSCALL_TYPE_IOCTL : Z;
  CIOCGSESSION : Z;
  CIOCFSESSION : Z;
  CIOCCRYPT : Z;
  sizeof_session_op : Z;
  type_open_close : VIRTIO_CRYPTODEV_SYSCALL_TYPE_OPEN ≠ VIRTIO_CRYPTODEV_SYSCALL_TYPE_CLOSE;
  type_open_ioctl : VIRTIO_CRYPTODEV_SYSCALL_TYPE_OPEN ≠ VIRTIO_CRYPTODEV_SYSCALL_TYPE_IOCTL;
  type_close_ioctl : VIRTIO_CRYPTODEV_SYSCALL_TYPE_CLOSE ≠ VIRTIO_CRYPTODEV_SYSCALL_TYPE_IOCTL;
  gsession_fsession : CIOCGSESSION ≠ CIOCFSESSION;
  gsession_crypt : CIOCGSESSION ≠ CIOCCRYPT;
  fsession_crypt : CIOCFSESSION ≠ CIOCCRYPT;
  agree_open : VIRTIO_CRYPTODEV_SYSCALL_OPEN = VIRTIO_CRYPTODEV_SYSCALL_TYPE_OPEN;
  agree_close : VIRTIO_CRYPTODEV_SYSCALL_CLOSE = VIRTIO_CRYPTODEV_SYSCALL_TYPE_CLOSE;
  agree_ioctl : VIRTIO_CRYPTODEV_SYSCALL_IOCTL = VIRTIO_CRYPTODEV_SYSCALL_TYPE_IOCTL;
  sizeof_session_op_pos : 0 < sizeof_session_op
}.

(** Linux errno numbers (asm-generic/errno-base.h). *)
Definition ENOMEM : Z := 12.
Definition ENODEV : Z := 19.
Definition EINVAL : Z := 22.

(** [#define MSG_LEN 100] in [crypto_chrdev_ioctl]. *)
Definition MSG_LEN : Z := 100.
(** [sizeof(unsigned int)] and [sizeof(int)]. *)
Definition sizeof_int : Z := 4.

(** ** Memory *)

(** The guest kernel objects a region can point at: the variables of the
    three guest functions that are handed to [sg_init_one], and the two
    members of the [struct crypto_open_file] that [filp->private_data] points
    to ([p_crof] is the address of the struct and of its first member
    [crdev]; [p_host_fd] is [&crof->host_fd]). *)
Inductive buf :=
  | p_syscall_type
  | p_crof
  | p_host_fd
  | p_cmd
  | p_output_msg
  | p_input_msg
  | p_copied_session
  | p_session_key.

#[global] Instance buf_eq_dec : EqDecision buf.
Proof. solve_decision. Defined.

#[global] Instance buf_countable : Countable buf.
Proof.
  refine (inj_countable'
    (λ b, match b with
          | p_syscall_type => 0 | p_crof => 1 | p_host_fd => 2 | p_cmd => 3
          | p_output_msg => 4 | p_input_msg => 5 | p_copied_session => 6
          | p_session_key => 7
          end%nat)
    (λ n, match n with
          | 0 => p_syscall_type | 1 => p_crof | 2 => p_host_fd | 3 => p_cmd
          | 4 => p_output_msg | 5 => p_input_msg | 6 => p_copied_session
          | _ => p_session_key
          end%nat) _); by intros [].
Defined.

(** A pointer stored inside a descriptor: a user-space address (what the
    caller of the ioctl wrote) or the base of a region (what the host patches
    in). *)
Inductive pointer :=
  | UserAddr (a : Z)
  | IovBase (b : buf).

(** Modelled from the spec: [struct session_op] is declared in [cryptodev.h],
    which is not among the source files.  The members are the ones the source
    touches ([keylen], [key]) and the session identifier the spec's Session
    Record names ("resulting session identifier, assigned by host"). *)
Record session_op := {
  keylen : Z;
  key : pointer;
  ses : Z
}.

(** Modelled from the spec: [struct crypt_op] of [cryptodev.h]; the members
    the host patches ([src], [dst], [iv]) and the Crypt Record's session
    identifier and declared length. *)
Record crypt_op := {
  crypt_ses : Z;
  len : Z;
  src : pointer;
  dst : pointer;
  iv : pointer
}.

(** [struct crypto_device]: the members the driver reads, [minor] and the
    virtqueue [vq] (a queue number; the queue itself is the transport). *)
Record crypto_device := {
  minor : Z;
  vq : Z
}.

#[global] Instance pointer_eq_dec : EqDecision pointer.
Proof. solve_decision. Defined.
#[global] Instance session_op_eq_dec : EqDecision session_op.
Proof. solve_decision. Defined.
#[global] Instance crypt_op_eq_dec : EqDecision crypt_op.
Proof. solve_decision. Defined.
#[global] Instance crypto_device_eq_dec : EqDecision crypto_device.
Proof. solve_decision. Defined.

(** The contents of a memory object, by the C type it is used at. *)
Inductive value :=
  | VInt (n : Z)                  (* int *)
  | VUInt (n : Z)                 (* unsigned int *)
  | VBytes (bs : list byte)       (* unsigned char[], __u8[] *)
  | VSessionOp (s : session_op)   (* struct session_op *)
  | VCryptOp (c : crypt_op)       (* struct crypt_op *)
  | VDev (d : crypto_device).     (* struct crypto_device * *)

Abbreviation kmem := (gmap buf value).
Abbreviation umem := (gmap Z value).

Definition load_int (m : kmem) (p : buf) : option Z :=
  match m !! p with Some (VInt n) => Some n | _ => None end.

Definition load_uint (m : kmem) (p : buf) : option Z :=
  match m !! p with Some (VUInt n) => Some n | _ => None end.

Definition load_dev (m : kmem) (p : buf) : option crypto_device :=
  match m !! p with Some (VDev d) => Some d | _ => None end.

(** ** Regions and descriptor sets *)

(** Guest side: a [struct scatterlist] initialised by [sg_init_one]. *)
Record scatterlist := {
  sg_buf : buf;
  sg_length : Z
}.

Definition sg_init_one (b : buf) (buflen : Z) : scatterlist :=
  {| sg_buf := b; sg_length := buflen |}.

(** Host side: a [struct iovec] and the popped [VirtQueueElement]. *)
Record iovec := {
  iov_base : buf;
  iov_len : Z
}.

Record VirtQueueElement := {
  out_sg : list iovec;
  in_sg : list iovec
}.

#[global] Instance iovec_eq_dec : EqDecision iovec.
Proof. solve_decision. Defined.
#[global] Instance VirtQueueElement_eq_dec : EqDecision VirtQueueElement.
Proof. solve_decision. Defined.

(** The array [sgs[]] with its two counters.  [sgs[num_out++] = &sg] and
    [sgs[num_out + num_in++] = &sg] are the only two ways the driver fills
    it.  A slot never written is [None]. *)
Record sg_table := {
  sgs : list (option scatterlist);
  num_out : nat;
  num_in : nat
}.

Definition sg_table_new (n : nat) : sg_table :=
  {| sgs := replicate n None; num_out := 0; num_in := 0 |}.

(** [sgs[num_out++] = &sg;] *)
Definition sgs_add_out (sg : scatterlist) (t : sg_table) : sg_table :=
  {| sgs := <[num_out t := Some sg]> (sgs t);
     num_out := S (num_out t);
     num_in := num_in t |}.

(** [sgs[num_out + num_in++] = &sg;] *)
Definition sgs_add_in (sg : scatterlist) (t : sg_table) : sg_table :=
  {| sgs := <[(num_out t + num_in t)%nat := Some sg]> (sgs t);
     num_out := num_out t;
     num_in := S (num_in t) |}.

Definition sg_to_iovec (sg : scatterlist) : iovec :=
  {| iov_base := sg_buf sg; iov_len := sg_length sg |}.

(** [virtqueue_add_sgs(vq, sgs, num_out, num_in, ...)]: the first [num_out]
    slots are the readable regions, the next [num_in] the writable ones.  A
    slot outside the array or never written is an undefined read ([None]). *)
Definition virtqueue_add_sgs (t : sg_table) : option VirtQueueElement :=
  if decide (num_out t + num_in t ≤ length (sgs t))%nat then
    outs ← mapM id (take (num_out t) (sgs t));
    ins ← mapM id (take (num_in t) (drop (num_out t) (sgs t)));
    Some {| out_sg := sg_to_iovec <$> outs; in_sg := sg_to_iovec <$> ins |}
  else None.

(** ** Guest state *)

(** User memory (the caller's address space), kernel memory, and the
    [private_data] member of the [struct file]. *)
Record guest := {
  user : umem;
  kernel : kmem;
  private_data : option buf
}.

Definition set_kernel (k : kmem) (st : guest) : guest :=
  {| user := user st; kernel := k; private_data := private_data st |}.

Definition set_private_data (p : option buf) (st : guest) : guest :=
  {| user := user st; kernel := kernel st; private_data := p |}.

(** An assignment to a kernel object (also: [kzalloc] followed by the
    initialising store). *)
Definition kstore (p : buf) (v : value) (st : guest) : guest :=
  set_kernel (<[p := v]> (kernel st)) st.

(** [kfree(p)], and the end of the lifetime of a stack variable. *)
Definition kfree (p : buf) (st : guest) : guest :=
  set_kernel (delete p (kernel st)) st.

(** ** The guest driver (crypto-chrdev.c) *)

(** [get_crypto_dev_by_minor]: the first device of [crdrvdata.devs] with the
    given minor number, [None] for [NULL]. *)
Fixpoint get_crypto_dev_by_minor (devs : list crypto_device) (m : Z)
    : option crypto_device :=
  match devs with
  | [] => None
  | crdev :: rest =>
      if decide (minor crdev = m) then Some crdev
      else get_crypto_dev_by_minor rest m
  end.

(** A C string literal with its terminating NUL. *)
Definition c_string (s : string) : list byte := list_byte_of_string s ++ [x00].

(** [memcpy(dst, src, n)] on the contents of [dst]. *)
Definition memcpy (dst src : list byte) (n : nat) : list byte :=
  take n src ++ drop n dst.

(** An update of a byte buffer in place. *)
Definition update_bytes (p : buf) (f : list byte → list byte) (st : guest) : guest :=
  match kernel st !! p with
  | Some (VBytes bs) => kstore p (VBytes (f bs)) st
  | _ => st
  end.

(** [copy_from_user(to, from, n)] of [n] bytes of key material: the number of
    bytes that could not be copied, and the bytes that were.  Nothing is read
    when [n] is 0. *)
Definition copy_bytes_from_user (um : umem) (from : pointer) (n : Z)
    : Z * list byte :=
  if decide (n = 0) then (0, [])
  else match from with
       | UserAddr a =>
           match um !! a with
           | Some (VBytes bs) =>
               let got := take (Z.to_nat n) bs in
               (n - Z.of_nat (length got), got)
           | _ => (n, [])
           end
       | IovBase _ => (n, [])
       end.

(** What the marshalling part of [crypto_chrdev_ioctl] ends in: the call of
    [virtqueue_add_sgs] with the table built so far, or [goto fail].  [ret] is
    the value of the variable [ret] at that point. *)
Inductive marshalled :=
  | Submit (ret : Z) (t : sg_table) (st : guest)
  | Abort (ret : Z) (st : guest).

Section Guest.
Context `{Headers}.

(** The transport of one request: [virtqueue_add_sgs], [virtqueue_kick] and
    the busy-wait [while (virtqueue_get_buf(vq, &len) == NULL);], all under
    the device's lock.  It maps the device, the descriptor set and the kernel
    memory at submission to the kernel memory at the time the loop sees the
    completion; [None] when it never does. *)
Variable transport : crypto_device → VirtQueueElement → kmem → option kmem.

(** [copy_from_user(&copied_session, user_session, sizeof(struct session_op))] *)
Definition copy_session_from_user (um : umem) (from : Z) : Z * option session_op :=
  match um !! from with
  | Some (VSessionOp s) => (0, Some s)
  | _ => (sizeof_session_op, None)
  end.

(** [crypto_chrdev_open].  [inode_minor] is [iminor(inode)],
    [nonseekable_ret] the value [nonseekable_open(inode, filp)] returns and
    [crof_alloc] whether [kzalloc(sizeof( *crof), GFP_KERNEL)] succeeds. *)
Definition crypto_chrdev_open (devs : list crypto_device) (inode_minor : Z)
    (nonseekable_ret : Z) (crof_alloc : bool) (st : guest) : option (Z * guest) :=
  let st := kstore p_syscall_type (VUInt VIRTIO_CRYPTODEV_SYSCALL_OPEN) st in
  let ret := nonseekable_ret in
  if decide (ret < 0) then Some (ret, kfree p_syscall_type st)
  else
    match get_crypto_dev_by_minor devs inode_minor with
    | None => Some (- ENODEV, kfree p_syscall_type st)
    | Some crdev =>
        if negb crof_alloc then Some (- ENOMEM, kfree p_syscall_type st)
        else
          let st := kstore p_crof (VDev crdev) st in
          let st := kstore p_host_fd (VInt (-1)) st in
          let st := set_private_data (Some p_crof) st in
          let t := sg_table_new 2 in
          let t := sgs_add_out (sg_init_one p_syscall_type sizeof_int) t in
          let t := sgs_add_in (sg_init_one p_host_fd sizeof_int) t in
          elem ← virtqueue_add_sgs t;
          k ← transport crdev elem (kernel st);
          let st := set_kernel k st in
          host_fd ← load_int (kernel st) p_host_fd;
          if decide (host_fd < 0) then Some (- ENODEV, st)
          else Some (ret, kfree p_syscall_type st)
    end.

(** [crypto_chrdev_release]. *)
Definition crypto_chrdev_release (st : guest) : option (Z * guest) :=
  let ret := 0 in
  crof ← private_data st;
  crdev ← load_dev (kernel st) crof;
  let st := kstore p_syscall_type (VUInt VIRTIO_CRYPTODEV_SYSCALL_CLOSE) st in
  let t := sg_table_new 2 in
  let t := sgs_add_out (sg_init_one p_syscall_type sizeof_int) t in
  let t := sgs_add_out (sg_init_one p_host_fd sizeof_int) t in
  elem ← virtqueue_add_sgs t;
  k ← transport crdev elem (kernel st);
  let st := set_kernel k st in
  let st := kfree p_syscall_type st in
  let st := kfree p_host_fd (kfree crof st) in
  Some (ret, st).

(** The regions common to all ioctl commands. *)
Definition ioctl_common (cmd : Z) (st : guest) : sg_table * guest :=
  let st := kstore p_cmd (VUInt cmd) st in
  let st := kstore p_output_msg (VBytes (replicate (Z.to_nat MSG_LEN) x00)) st in
  let st := kstore p_input_msg (VBytes (replicate (Z.to_nat MSG_LEN) x00)) st in
  let st := kstore p_syscall_type (VUInt VIRTIO_CRYPTODEV_SYSCALL_IOCTL) st in
  let t := sg_table_new 9 in
  let t := sgs_add_out (sg_init_one p_syscall_type sizeof_int) t in
  let t := sgs_add_out (sg_init_one p_host_fd sizeof_int) t in
  let t := sgs_add_out (sg_init_one p_cmd sizeof_int) t in
  (t, st).

(** The first five statements of each of the three recognised cases: the
    greeting is copied into [output_msg], [input_msg] is emptied, and the two
    message regions are added. *)
Definition ioctl_msgs (hello : string) (n : nat) (t : sg_table) (st : guest)
    : sg_table * guest :=
  let st := update_bytes p_output_msg (λ bs, memcpy bs (c_string hello) n) st in
  let st := update_bytes p_input_msg (λ bs, <[0%nat := x00]> bs) st in
  let t := sgs_add_out (sg_init_one p_output_msg MSG_LEN) t in
  let t := sgs_add_in (sg_init_one p_input_msg MSG_LEN) t in
  (t, st).

(** [crypto_chrdev_ioctl] up to the comment "Wait for the host to process our
    data": the allocations and the [switch (cmd)].  The statements of the
    source that are commented out are no part of it. *)
Definition ioctl_marshal (cmd arg : Z) (st : guest) : marshalled :=
  let ret := 0 in
  let '(t, st) := ioctl_common cmd st in
  if decide (cmd = CIOCGSESSION) then
    let '(t, st) := ioctl_msgs "Hello HOST from ioctl CIOCGSESSION." 36 t st in
    let user_session := arg in
    match copy_session_from_user (user st) user_session with
    | (0, Some copied) =>
        let st := kstore p_copied_session (VSessionOp copied) st in
        (* session_key = kzalloc(copied_session.keylen+1, GFP_KERNEL) *)
        let zeros := replicate (Z.to_nat ((keylen copied + 1) `mod` 2 ^ 32)) x00 in
        (* user_session->key and user_session->keylen: the caller's struct,
           which the copy above has just read *)
        let '(ret, got) := copy_bytes_from_user (user st) (key copied) (keylen copied) in
        let st := kstore p_session_key (VBytes (got ++ drop (length got) zeros)) st in
        if decide (ret ≠ 0) then Abort ret st
        else
          let st := update_bytes p_session_key
                      (λ bs, <[Z.to_nat (keylen copied) := x00]> bs) st in
          let t := sgs_add_in (sg_init_one p_copied_session sizeof_session_op) t in
          Submit ret t st
    | (ret, _) => Abort ret st
    end
  else if decide (cmd = CIOCFSESSION) then
    let '(t, st) := ioctl_msgs "Hello HOST from ioctl CIOCFSESSION." 36 t st in
    Submit ret t st
  else if decide (cmd = CIOCCRYPT) then
    let '(t, st) := ioctl_msgs "Hello HOST from ioctl CIOCCRYPT." 33 t st in
    Submit ret t st
  else Submit ret t st.

(** The label [fail:] and what follows it; then [cmd] and [copied_session]
    go out of scope.  In the cases other than CIOCGSESSION the pointers freed
    by the second [switch] are still NULL. *)
Definition ioctl_cleanup (cmd : Z) (st : guest) : guest :=
  let st := if decide (cmd = CIOCGSESSION) then kfree p_session_key st else st in
  let st := kfree p_output_msg st in
  let st := kfree p_input_msg st in
  let st := kfree p_syscall_type st in
  kfree p_copied_session (kfree p_cmd st).

(** [crypto_chrdev_ioctl]. *)
Definition crypto_chrdev_ioctl (cmd arg : Z) (st : guest) : option (Z * guest) :=
  crof ← private_data st;
  crdev ← load_dev (kernel st) crof;
  match ioctl_marshal cmd arg st with
  | Abort ret st => Some (ret, ioctl_cleanup cmd st)
  | Submit ret t st =>
      elem ← virtqueue_add_sgs t;
      k ← transport crdev elem (kernel st);
      Some (ret, ioctl_cleanup cmd (set_kernel k st))
  end.

(** [crypto_chrdev_read]: the result, the guest state and the file position
    [*f_pos] afterwards. *)
Definition crypto_chrdev_read (usrbuf cnt f_pos : Z) (st : guest)
    : Z * guest * Z :=
  (- EINVAL, st, f_pos).

End Guest.

(** ** The host dispatcher (hw/char/virtio-cryptodev.c) *)

(** The real crypto device of the host, [/dev/crypto], as the dispatcher
    uses it: the result of [open("/dev/crypto", O_RDWR)], and
    [ioctl(fd, cmd, arg)], which reads and writes the memory [arg] points
    into and returns a status.  The result of [close(fd)] is discarded by the
    dispatcher and has no field. *)
Record crypto_backend := {
  host_open : Z;
  host_ioctl : Z → Z → buf → kmem → kmem * Z
}.

(** What the dispatcher does to the outside: calls of the real device, and
    [virtqueue_push(vq, elem, len)] and [virtio_notify(vdev, vq)]. *)
Inductive event :=
  | EvOpen
  | EvClose (fd : Z)
  | EvIoctl (fd cmd : Z) (arg : buf)
  | EvPush (elem : VirtQueueElement) (len : Z)
  | EvNotify.

#[global] Instance event_eq_dec : EqDecision event.
Proof. solve_decision. Defined.

Definition is_push (e : event) : bool :=
  match e with EvPush _ _ => true | _ => false end.

Definition is_device_call (e : event) : bool :=
  match e with EvOpen | EvClose _ | EvIoctl _ _ _ => true | _ => false end.

(** [sg[i].iov_base]; an index outside the array is an undefined read. *)
Definition region (sg : list iovec) (i : nat) : option buf :=
  iov_base <$> sg !! i.

(** [*p = n] for an [int *p] that is the base of a region. *)
Definition store_int (m : kmem) (p : buf) (n : Z) : kmem := <[p := VInt n]> m.

(** [sess->key = key]: defined when [sess] points to a session descriptor. *)
Definition store_session_key (m : kmem) (sess : buf) (k : pointer) : option kmem :=
  match m !! sess with
  | Some (VSessionOp s) =>
      Some (<[sess := VSessionOp {| keylen := keylen s; key := k; ses := ses s |}]> m)
  | _ => None
  end.

(** [crypt->src = src; crypt->dst = dst; crypt->iv = iv]: defined when
    [crypt] points to a crypt descriptor. *)
Definition store_crypt_pointers (m : kmem) (crypt : buf) (s d i : pointer)
    : option kmem :=
  match m !! crypt with
  | Some (VCryptOp c) =>
      Some (<[crypt := VCryptOp {| crypt_ses := crypt_ses c; len := len c;
                                   src := s; dst := d; iv := i |}]> m)
  | _ => None
  end.

Section Host.
Context `{Headers}.
Variable dev : crypto_backend.

(** [case VIRTIO_CRYPTODEV_SYSCALL_TYPE_OPEN] *)
Definition handle_open (elem : VirtQueueElement) (m : kmem)
    : option (kmem * list event) :=
  host_fd ← region (in_sg elem) 0;
  Some (store_int m host_fd (host_open dev), [EvOpen]).

(** [case VIRTIO_CRYPTODEV_SYSCALL_TYPE_CLOSE] *)
Definition handle_close (elem : VirtQueueElement) (m : kmem)
    : option (kmem * list event) :=
  host_fd ← region (out_sg elem) 1;
  fd ← load_int m host_fd;
  Some (m, [EvClose fd]).

(** [case VIRTIO_CRYPTODEV_SYSCALL_TYPE_IOCTL], with its inner
    [switch ( *cmd)]. *)
Definition handle_ioctl (elem : VirtQueueElement) (m : kmem)
    : option (kmem * list event) :=
  host_fd ← region (out_sg elem) 1;
  cmd ← region (out_sg elem) 2;
  fd ← load_int m host_fd;
  c ← load_uint m cmd;
  if decide (c = CIOCGSESSION) then
    sess ← region (in_sg elem) 0;
    key ← region (in_sg elem) 1;
    host_return_val ← region (in_sg elem) 2;
    m ← store_session_key m sess (IovBase key);
    let '(m, r) := host_ioctl dev fd CIOCGSESSION sess m in
    Some (store_int m host_return_val r, [EvIoctl fd CIOCGSESSION sess])
  else if decide (c = CIOCFSESSION) then
    ses ← region (in_sg elem) 0;
    host_return_val ← region (in_sg elem) 1;
    let '(m, r) := host_ioctl dev fd CIOCFSESSION ses m in
    Some (store_int m host_return_val r, [EvIoctl fd CIOCFSESSION ses])
  else if decide (c = CIOCCRYPT) then
    crypt ← region (in_sg elem) 0;
    src ← region (in_sg elem) 1;
    dst ← region (in_sg elem) 2;
    iv ← region (in_sg elem) 3;
    host_return_val ← region (in_sg elem) 4;
    m ← store_crypt_pointers m crypt (IovBase src) (IovBase dst) (IovBase iv);
    let '(m, r) := host_ioctl dev fd CIOCCRYPT crypt m in
    Some (store_int m host_return_val r, [EvIoctl fd CIOCCRYPT crypt])
  else Some (m, []).

(** The outer [switch ( *syscall_type)]. *)
Definition handle_syscall (elem : VirtQueueElement) (m : kmem)
    : option (kmem * list event) :=
  syscall_type ← region (out_sg elem) 0;
  sc ← load_uint m syscall_type;
  if decide (sc = VIRTIO_CRYPTODEV_SYSCALL_TYPE_OPEN) then handle_open elem m
  else if decide (sc = VIRTIO_CRYPTODEV_SYSCALL_TYPE_CLOSE) then handle_close elem m
  else if decide (sc = VIRTIO_CRYPTODEV_SYSCALL_TYPE_IOCTL) then handle_ioctl elem m
  else Some (m, []).

(** [vq_handle_output].  [popped] is the result of [virtqueue_pop]; the
    result is the shared memory afterwards and the events in order, [None]
    when the C code reads a region that is not there or uses one at a type
    it does not have. *)
Definition vq_handle_output (popped : option VirtQueueElement) (m : kmem)
    : option (kmem * list event) :=
  match popped with
  | None => Some (m, [EvNotify])
  | Some elem =>
      '(m, evs) ← handle_syscall elem m;
      Some (m, evs ++ [EvPush elem 0; EvNotify])
  end.






(** The virtqueue between the two: the guest's kick runs the dispatcher on the
    element just added, and the guest's busy-wait ends when the element has
    been pushed back; it spins forever ([None]) otherwise. *)
Definition virtio_transport (crdev : crypto_device) (elem : VirtQueueElement)
    (m : kmem) : option kmem :=
  '(m, evs) ← vq_handle_output (Some elem) m;
  if decide (EvPush elem 0 ∈ evs) then Some m else None.

End Host.

(** ** A concrete set of header constants *)

(** The numbering 0, 1, 2 of the three syscall types on both sides, the
    x86-64 encodings of the three cryptodev commands, and
    [sizeof(struct session_op)] there. *)
Program Definition lab_headers : Headers := {|
  VIRTIO_CRYPTODEV_SYSCALL_OPEN := 0;
  VIRTIO_CRYPTODEV_SYSCALL_CLOSE := 1;
  VIRTIO_CRYPTODEV_SYSCALL_IOCTL := 2;
  VIRTIO_CRYPTODEV_SYSCALL_TYPE_OPEN := 0;
  VIRTIO_CRYPTODEV_SYSCALL_TYPE_CLOSE := 1;
  VIRTIO_CRYPTODEV_SYSCALL_TYPE_IOCTL := 2;
  CIOCGSESSION := 3224396646;
  CIOCFSESSION := 1074029415;
  CIOCCRYPT := 3224396648;
  sizeof_session_op := 48
|}.
Solve All Obligations with done.

(** ** Notions used in the statements *)

(** The file is open: [filp->private_data] points to a
    [struct crypto_open_file] whose members are the device [crdev] and the
    host handle [fd]. *)
Definition file_open (st : guest) (crdev : crypto_device) (fd : Z) : Prop :=
  private_data st = Some p_crof
  ∧ kernel st !! p_crof = Some (VDev crdev)
  ∧ kernel st !! p_host_fd = Some (VInt fd).

(** Both [copy_from_user] calls of the CIOCGSESSION case return 0: the
    caller's descriptor is readable at [arg] and so are [keylen] bytes at its
    [key]. *)
Definition copies_succeed (um : umem) (arg : Z) (s : session_op) : Prop :=
  um !! arg = Some (VSessionOp s)
  ∧ (copy_bytes_from_user um (key s) (keylen s)).1 = 0.

(** A transport that completes every request, leaving in memory whatever the
    host [served] wrote. *)
Definition completes (served : crypto_device → VirtQueueElement → kmem → kmem)
    : crypto_device → VirtQueueElement → kmem → option kmem :=
  λ crdev elem m, Some (served crdev elem m).

Definition iov (b : buf) (n : Z) : iovec := {| iov_base := b; iov_len := n |}.

(** The descriptor sets the guest driver builds, as the host sees them. *)
Definition open_request : VirtQueueElement :=
  {| out_sg := [iov p_syscall_type 4]; in_sg := [iov p_host_fd 4] |}.

Definition close_request : VirtQueueElement :=
  {| out_sg := [iov p_syscall_type 4; iov p_host_fd 4]; in_sg := [] |}.

Definition header_request : VirtQueueElement :=
  {| out_sg := [iov p_syscall_type 4; iov p_host_fd 4; iov p_cmd 4];
     in_sg := [] |}.

Definition message_request : VirtQueueElement :=
  {| out_sg := [iov p_syscall_type 4; iov p_host_fd 4; iov p_cmd 4;
                iov p_output_msg 100];
     in_sg := [iov p_input_msg 100] |}.

Definition session_request `{Headers} : VirtQueueElement :=
  {| out_sg := [iov p_syscall_type 4; iov p_host_fd 4; iov p_cmd 4;
                iov p_output_msg 100];
     in_sg := [iov p_input_msg 100; iov p_copied_session sizeof_session_op] |}.

(** The number of times the dispatcher hands an element back. *)
Definition pushes (evs : list event) : nat := length (List.filter is_push evs).

(** An open file on device 0 with host handle 3, and nothing else. *)
Definition example_device : crypto_device := {| minor := 0; vq := 0 |}.

Definition example_open_state : guest :=
  {| user := ∅;
     kernel := <[p_crof := VDev example_device]> (<[p_host_fd := VInt 3]> ∅);
     private_data := Some p_crof |}.

(** The cells of the open file and the caller's memory are left alone. *)
Definition same_file (st st' : guest) : Prop :=
  user st' = user st
  ∧ private_data st' = private_data st
  ∧ kernel st' !! p_crof = kernel st !! p_crof
  ∧ kernel st' !! p_host_fd = kernel st !! p_host_fd.

(** The guest state with another caller memory. *)
Definition set_user (u : umem) (st : guest) : guest :=
  {| user := u; kernel := kernel st; private_data := private_data st |}.

(** The state before any file is open. *)
Definition empty_state : guest :=
  {| user := ∅; kernel := ∅; private_data := None |}.

(** A caller with a session descriptor at address 4096 whose 16-byte key is
    at address 8192, on the open file of [example_open_state]. *)
Definition example_session : session_op :=
  {| keylen := 16; key := UserAddr 8192; ses := 0 |}.

Definition example_session_state : guest :=
  {| user := <[4096 := VSessionOp example_session]>
               (<[8192 := VBytes (list_byte_of_string "0123456789abcdef")]> ∅);
     kernel := kernel example_open_state;
     private_data := Some p_crof |}.

(** A real device on which everything succeeds, and one on which everything
    fails. *)
Definition working_backend : crypto_backend :=
  {| host_open := 3; host_ioctl := λ fd cmd arg m, (m, 0) |}.

Definition failing_backend : crypto_backend :=
  {| host_open := -1; host_ioctl := λ fd cmd arg m, (m, -1) |}.

(** A host that reports failure wherever it can: it overwrites every region
    it may write with the int -1. *)
Definition failing_host (crdev : crypto_device) (elem : VirtQueueElement)
    (m : kmem) : kmem :=
  foldr (λ r acc, <[iov_base r := VInt (-1)]> acc) m (in_sg elem).

(** A host that assigns session identifier 42 in the session descriptor of
    the guest. *)
Definition assigning_host (crdev : crypto_device) (elem : VirtQueueElement)
    (m : kmem) : kmem :=
  <[p_copied_session :=
      VSessionOp {| keylen := 16; key := UserAddr 8192; ses := 42 |}]> m.

(** A CIOCGSESSION request in the layout the dispatcher reads: the session
    descriptor, the key and the status as the three writable regions; and a
    memory in which it is well typed. *)
Definition host_session_request : VirtQueueElement :=
  {| out_sg := [iov p_syscall_type 4; iov p_host_fd 4; iov p_cmd 4];
     in_sg := [iov p_copied_session 48; iov p_session_key 17;
               iov p_input_msg 4] |}.

Definition host_session_memory : kmem :=
  <[p_syscall_type := VUInt 2]>
    (<[p_host_fd := VInt 3]>
       (<[p_cmd := VUInt 3224396646]>
          (<[p_copied_session := VSessionOp example_session]> ∅))).

(** The sentence of the specification about [open], word for word: it fails
    exactly when the minor is unknown (NoSuchDevice) or the host wrote a
    negative handle (HostRejected). *)
Definition spec_open_failure `{Headers} (dev : crypto_backend)
    (devs : list crypto_device) (inode_minor nonseekable_ret : Z)
    (crof_alloc : bool) (st : guest) : Prop :=
  ∀ ret st',
    crypto_chrdev_open (virtio_transport dev) devs inode_minor nonseekable_ret
      crof_alloc st = Some (ret, st') →
    (ret ≠ 0 ↔ get_crypto_dev_by_minor devs inode_minor = None
               ∨ host_open dev < 0).

(** The sentence of the specification about the dispatcher, word for word,
    at one popped descriptor set: the dispatcher returns that descriptor set
    to the transport exactly once and raises a notification before
    finishing. *)
Definition spec_returned_once `{Headers} (dev : crypto_backend)
    (elem : VirtQueueElement) (m : kmem) : Prop :=
  ∃ m' evs,
    vq_handle_output dev (Some elem) m = Some (m', evs)
    ∧ (∃ len, EvPush elem len ∈ evs)
    ∧ pushes evs = 1%nat
    ∧ ∃ before, evs = before ++ [EvNotify].

(** The shared memory at the moment the guest of [example_session_state]
    submits its CIOCGSESSION request. *)
Definition guest_session_memory : kmem :=
  match ioctl_marshal (H := lab_headers) 3224396646 4096
          example_session_state with
  | Submit _ _ st1 => kernel st1
  | Abort _ st1 => kernel st1
  end.

(** ** The character device region (crypto_chrdev_init, crypto_chrdev_destroy) *)

(** [MKDEV(ma, mi)] of linux/kdev_t.h. *)
Definition MINORBITS : Z := 20.
Definition MKDEV (ma mi : Z) : Z := Z.lor (Z.shiftl ma MINORBITS) mi.

(** What [register_chrdev_region] and [cdev_add] report: zero on success, a
    negative error code on failure. *)
Inductive kresult :=
  | KSuccess
  | KFailure (errno : positive).

Definition kret (r : kresult) : Z :=
  match r with KSuccess => 0 | KFailure e => Z.neg e end.

(** The kernel's side of the character device: the registered device number
    regions, each a first device number and a count, and the range the one
    [crypto_chrdev_cdev] is live for, if it is. *)
Record chrdevs := {
  chrdev_regions : gset (Z * Z);
  cdev_live : option (Z * Z)
}.

Definition register_chrdev_region (r : kresult) (from count : Z) (s : chrdevs)
    : Z * chrdevs :=
  match r with
  | KSuccess =>
      (0, {| chrdev_regions := {[ (from, count) ]} ∪ chrdev_regions s;
             cdev_live := cdev_live s |})
  | KFailure _ => (kret r, s)
  end.

Definition unregister_chrdev_region (from count : Z) (s : chrdevs) : chrdevs :=
  {| chrdev_regions := chrdev_regions s ∖ {[ (from, count) ]};
     cdev_live := cdev_live s |}.

Definition cdev_add (r : kresult) (dev count : Z) (s : chrdevs) : Z * chrdevs :=
  match r with
  | KSuccess =>
      (0, {| chrdev_regions := chrdev_regions s;
             cdev_live := Some (dev, count) |})
  | KFailure _ => (kret r, s)
  end.

Definition cdev_del (s : chrdevs) : chrdevs :=
  {| chrdev_regions := chrdev_regions s; cdev_live := None |}.

Section Chrdev.
(** Macros of [crypto.h], which is not among the source files. *)
Variables CRYPTO_CHRDEV_MAJOR CRYPTO_NR_DEVICES : Z.

(** [crypto_chrdev_init].  [region_result] and [add_result] are what
    [register_chrdev_region] and [cdev_add] report. *)
Definition crypto_chrdev_init (region_result add_result : kresult) (s : chrdevs)
    : Z * chrdevs :=
  let crypto_minor_cnt := CRYPTO_NR_DEVICES in
  let dev_no := MKDEV CRYPTO_CHRDEV_MAJOR 0 in
  let '(ret, s) :=
    register_chrdev_region region_result dev_no crypto_minor_cnt s in
  if decide (ret < 0) then (ret, s)
  else
    let '(ret, s) := cdev_add add_result dev_no crypto_minor_cnt s in
    if decide (ret < 0) then
      (ret, unregister_chrdev_region dev_no crypto_minor_cnt s)
    else (0, s).

(** [crypto_chrdev_destroy]. *)
Definition crypto_chrdev_destroy (s : chrdevs) : chrdevs :=
  let crypto_minor_cnt := CRYPTO_NR_DEVICES in
  let dev_no := MKDEV CRYPTO_CHRDEV_MAJOR 0 in
  unregister_chrdev_region dev_no crypto_minor_cnt (cdev_del s).

End Chrdev.

(** A kernel with no region registered and no cdev live. *)
Definition no_chrdevs : chrdevs := {| chrdev_regions := ∅; cdev_live := None |}.

(** ** Further notions used in the statements *)

(** The objects [crypto_chrdev_ioctl] allocates or has on its stack in every
    case. *)
Definition ioctl_temporaries : list buf :=
  [p_syscall_type; p_cmd; p_output_msg; p_input_msg; p_copied_session].

(** [sgs[num_out++] = &sg] for each of [outs] in turn, then
    [sgs[num_out + num_in++] = &sg] for each of [ins], on an array of [n]
    slots: the order in which the guest functions fill the array. *)
Definition sgs_fill (n : nat) (outs ins : list scatterlist) : sg_table :=
  foldl (λ t sg, sgs_add_in sg t)
    (foldl (λ t sg, sgs_add_out sg t) (sg_table_new n) outs) ins.

(** The header of an IOCTL element as the dispatcher reads it: readable
    region 0 holds the IOCTL syscall type, region 1 the host handle [fd],
    region 2 the command [cmd]. *)
Definition ioctl_header `{Headers} (elem : VirtQueueElement) (m : kmem)
    (fd cmd : Z) : Prop :=
  (region (out_sg elem) 0 ≫= load_uint m)
    = Some VIRTIO_CRYPTODEV_SYSCALL_TYPE_IOCTL
  ∧ (region (out_sg elem) 1 ≫= load_int m) = Some fd
  ∧ (region (out_sg elem) 2 ≫= load_uint m) = Some cmd.

(** The number of calls of the real device among the events. *)
Definition device_calls (evs : list event) : nat :=
  length (List.filter is_device_call evs).

(** A caller whose descriptor at 4096 asks for a 32-byte key where only 16
    bytes are readable, and one whose descriptor has an empty key behind a
    dangling pointer. *)
Definition short_key_state : guest :=
  {| user := <[4096 := VSessionOp {| keylen := 32; key := UserAddr 8192;
                                     ses := 0 |}]>
               (<[8192 := VBytes (list_byte_of_string "0123456789abcdef")]> ∅);
     kernel := kernel example_open_state;
     private_data := Some p_crof |}.

Definition empty_key_state : guest :=
  {| user := <[4096 := VSessionOp {| keylen := 0; key := UserAddr 12345;
                                     ses := 0 |}]> ∅;
     kernel := kernel example_open_state;
     private_data := Some p_crof |}.

(** CIOCFSESSION and CIOCCRYPT requests in the layout the dispatcher reads,
    with memories in which they are well typed. *)
Definition host_free_request : VirtQueueElement :=
  {| out_sg := [iov p_syscall_type 4; iov p_host_fd 4; iov p_cmd 4];
     in_sg := [iov p_copied_session 4; iov p_input_msg 4] |}.

Definition host_free_memory : kmem :=
  <[p_syscall_type := VUInt 2]>
    (<[p_host_fd := VInt 3]>
       (<[p_cmd := VUInt 1074029415]>
          (<[p_copied_session := VUInt 42]> ∅))).

Definition host_crypt_request : VirtQueueElement :=
  {| out_sg := [iov p_syscall_type 4; iov p_host_fd 4; iov p_cmd 4];
     in_sg := [iov p_copied_session 48; iov p_output_msg 12;
               iov p_input_msg 12; iov p_session_key 16; iov p_crof 4] |}.

Definition host_crypt_memory : kmem :=
  <[p_syscall_type := VUInt 2]>
    (<[p_host_fd := VInt 3]>
       (<[p_cmd := VUInt 3224396648]>
          (<[p_copied_session :=
               VCryptOp {| crypt_ses := 42; len := 12; src := UserAddr 0;
                           dst := UserAddr 0; iv := UserAddr 0 |}]> ∅))).

(** An element whose syscall type is none of the three. *)
Definition host_unknown_memory : kmem := <[p_syscall_type := VUInt 9]> ∅.

(** * Facts about the guest state *)

Lemma kstore_user p v st : user (kstore p v st) = user st.
Proof. done. Qed.

Lemma set_kernel_user k st : user (set_kernel k st) = user st.
Proof. done. Qed.

Lemma kstore_set_user p v u st :
  kstore p v (set_user u st) = set_user u (kstore p v st).
Proof. done. Qed.

Lemma update_bytes_set_user p f u st :
  update_bytes p f (set_user u st) = set_user u (update_bytes p f st).
Proof. unfold update_bytes. simpl. by repeat case_match. Qed.

Lemma update_bytes_user p f st : user (update_bytes p f st) = user st.
Proof. unfold update_bytes. by repeat case_match. Qed.

Lemma update_bytes_private_data p f st :
  private_data (update_bytes p f st) = private_data st.
Proof. unfold update_bytes. by repeat case_match. Qed.

Lemma update_bytes_lookup_ne p q f st :
  p ≠ q → kernel (update_bytes p f st) !! q = kernel st !! q.
Proof.
  intros Hne. unfold update_bytes. repeat case_match; try done.
  simpl. by rewrite lookup_insert_ne.
Qed.

Lemma same_file_open st st' crdev fd :
  same_file st st' → file_open st crdev fd → file_open st' crdev fd.
Proof.
  intros (_ & Hp & Hc & Hf) (? & ? & ?). unfold file_open. by rewrite Hp, Hc, Hf.
Qed.

Lemma same_file_trans st1 st2 st3 :
  same_file st1 st2 → same_file st2 st3 → same_file st1 st3.
Proof.
  intros (? & ? & ? & ?) (? & ? & ? & ?). unfold same_file.
  repeat split; congruence.
Qed.

Section GuestFacts.
Context `{Headers}.
Implicit Types (st : guest) (cmd arg : Z).

Lemma ioctl_common_table cmd st :
  virtqueue_add_sgs (ioctl_common cmd st).1 = Some header_request.
Proof. reflexivity. Qed.

Lemma ioctl_common_same_file cmd st : same_file st (ioctl_common cmd st).2.
Proof. unfold same_file. simpl. by simplify_map_eq. Qed.

Lemma ioctl_common_header cmd st :
  kernel (ioctl_common cmd st).2 !! p_syscall_type
    = Some (VUInt VIRTIO_CRYPTODEV_SYSCALL_IOCTL)
  ∧ kernel (ioctl_common cmd st).2 !! p_cmd = Some (VUInt cmd).
Proof. split; simpl; by simplify_map_eq. Qed.

Lemma ioctl_msgs_table hello n cmd st :
  virtqueue_add_sgs
    (ioctl_msgs hello n (ioctl_common cmd st).1 (ioctl_common cmd st).2).1
  = Some message_request.
Proof. reflexivity. Qed.

Lemma ioctl_msgs_same_file hello n t st : same_file st (ioctl_msgs hello n t st).2.
Proof.
  unfold ioctl_msgs, same_file. simpl.
  rewrite !update_bytes_user, !update_bytes_private_data.
  by rewrite !update_bytes_lookup_ne.
Qed.

Lemma ioctl_msgs_header hello n t st p :
  p = p_syscall_type ∨ p = p_cmd →
  kernel (ioctl_msgs hello n t st).2 !! p = kernel st !! p.
Proof.
  intros [-> | ->]; unfold ioctl_msgs; simpl; by rewrite !update_bytes_lookup_ne.
Qed.

Lemma ioctl_cleanup_same_file cmd st : same_file st (ioctl_cleanup cmd st).
Proof.
  unfold ioctl_cleanup, same_file. case_decide; simpl; by simplify_map_eq.
Qed.

Lemma ioctl_marshal_unknown cmd arg st :
  cmd ≠ CIOCGSESSION → cmd ≠ CIOCFSESSION → cmd ≠ CIOCCRYPT →
  ioctl_marshal cmd arg st
  = Submit 0 (ioctl_common cmd st).1 (ioctl_common cmd st).2.
Proof.
  intros. unfold ioctl_marshal. destruct (ioctl_common cmd st) as [t st1].
  by repeat case_decide.
Qed.

Lemma ioctl_marshal_fsession arg st :
  ioctl_marshal CIOCFSESSION arg st =
  Submit 0
    (ioctl_msgs "Hello HOST from ioctl CIOCFSESSION." 36
       (ioctl_common CIOCFSESSION st).1 (ioctl_common CIOCFSESSION st).2).1
    (ioctl_msgs "Hello HOST from ioctl CIOCFSESSION." 36
       (ioctl_common CIOCFSESSION st).1 (ioctl_common CIOCFSESSION st).2).2.
Proof.
  unfold ioctl_marshal. destruct (ioctl_common _ st) as [t st1].
  pose proof gsession_fsession. repeat case_decide; try done.
Qed.

Lemma ioctl_marshal_crypt arg st :
  ioctl_marshal CIOCCRYPT arg st =
  Submit 0
    (ioctl_msgs "Hello HOST from ioctl CIOCCRYPT." 33
       (ioctl_common CIOCCRYPT st).1 (ioctl_common CIOCCRYPT st).2).1
    (ioctl_msgs "Hello HOST from ioctl CIOCCRYPT." 33
       (ioctl_common CIOCCRYPT st).1 (ioctl_common CIOCCRYPT st).2).2.
Proof.
  unfold ioctl_marshal. destruct (ioctl_common _ st) as [t st1].
  pose proof gsession_crypt. pose proof fsession_crypt.
  repeat case_decide; try done.
Qed.

(** The CIOCGSESSION case when both copies succeed: four readable regions,
    then the message and the session descriptor as writable ones. *)
Lemma ioctl_marshal_gsession arg st s :
  copies_succeed (user st) arg s →
  ∃ t st1,
    ioctl_marshal CIOCGSESSION arg st = Submit 0 t st1
    ∧ virtqueue_add_sgs t = Some session_request
    ∧ same_file st st1
    ∧ kernel st1 !! p_syscall_type = Some (VUInt VIRTIO_CRYPTODEV_SYSCALL_IOCTL)
    ∧ kernel st1 !! p_cmd = Some (VUInt CIOCGSESSION)
    ∧ kernel st1 !! p_copied_session = Some (VSessionOp s).
Proof.
  intros [Hs Hk]. unfold ioctl_marshal.
  cbv beta zeta iota delta [ioctl_common ioctl_msgs].
  case_decide; [|done].
  rewrite ?kstore_user, ?update_bytes_user, ?kstore_user.
  unfold copy_session_from_user. rewrite Hs. cbv beta iota zeta.
  rewrite ?kstore_user, ?update_bytes_user, ?kstore_user.
  destruct (copy_bytes_from_user _ _ _) as [ret got] eqn:Hcopy.
  simpl in Hk. subst ret. case_decide; [done|].
  eexists _, _. split; [done|].
  split; [reflexivity|].
  unfold same_file.
  rewrite ?update_bytes_user, ?update_bytes_private_data.
  rewrite !(update_bytes_lookup_ne p_session_key) by done.
  cbn [kstore set_kernel kernel user private_data].
  rewrite !(lookup_insert_ne _ p_session_key),
    !(lookup_insert_ne _ p_copied_session) by done.
  rewrite lookup_insert_eq.
  rewrite ?update_bytes_user, ?update_bytes_private_data.
  rewrite !(update_bytes_lookup_ne p_input_msg),
    !(update_bytes_lookup_ne p_output_msg) by done.
  cbn [kstore set_kernel kernel user private_data].
  by simplify_map_eq.
Qed.

(** A failing copy ends the CIOCGSESSION case before anything is submitted,
    with the number of bytes not copied as the result. *)
Lemma ioctl_marshal_gsession_fault arg st :
  (∀ s, user st !! arg ≠ Some (VSessionOp s)) →
  ∃ st1, ioctl_marshal CIOCGSESSION arg st = Abort sizeof_session_op st1.
Proof.
  intros Hno. unfold ioctl_marshal.
  cbv beta zeta iota delta [ioctl_common ioctl_msgs].
  case_decide; [|done].
  rewrite ?kstore_user, ?update_bytes_user, ?kstore_user.
  unfold copy_session_from_user.
  pose proof sizeof_session_op_pos.
  destruct (user st !! arg) as [[]|] eqn:Hu;
    try (destruct sizeof_session_op eqn:?; [lia|by eexists..]).
  by destruct (Hno s).
Qed.

End GuestFacts.

(** * Facts about the dispatcher *)



Section HostFacts.
Context `{Headers} (dev : crypto_backend).
Implicit Types (elem : VirtQueueElement) (m : kmem).



(** Reading a typed cell. *)
Lemma load_uint_lookup m p n : m !! p = Some (VUInt n) → load_uint m p = Some n.
Proof. unfold load_uint. by intros ->. Qed.

Lemma load_int_lookup m p n : m !! p = Some (VInt n) → load_int m p = Some n.
Proof. unfold load_int. by intros ->. Qed.

(** The outer switch, case by case. *)
Lemma handle_syscall_open elem m p :
  region (out_sg elem) 0 = Some p →
  m !! p = Some (VUInt VIRTIO_CRYPTODEV_SYSCALL_TYPE_OPEN) →
  handle_syscall dev elem m = handle_open dev elem m.
Proof.
  intros Hp Hm. unfold handle_syscall. rewrite Hp. simpl.
  rewrite (load_uint_lookup _ _ _ Hm). simpl. by case_decide.
Qed.

Lemma handle_syscall_close elem m p :
  region (out_sg elem) 0 = Some p →
  m !! p = Some (VUInt VIRTIO_CRYPTODEV_SYSCALL_TYPE_CLOSE) →
  handle_syscall dev elem m = handle_close elem m.
Proof.
  intros Hp Hm. unfold handle_syscall. rewrite Hp. simpl.
  rewrite (load_uint_lookup _ _ _ Hm). simpl.
  pose proof type_open_close. repeat case_decide; congruence.
Qed.

Lemma handle_syscall_ioctl elem m p :
  region (out_sg elem) 0 = Some p →
  m !! p = Some (VUInt VIRTIO_CRYPTODEV_SYSCALL_TYPE_IOCTL) →
  handle_syscall dev elem m = handle_ioctl dev elem m.
Proof.
  intros Hp Hm. unfold handle_syscall. rewrite Hp. simpl.
  rewrite (load_uint_lookup _ _ _ Hm). simpl.
  pose proof type_open_ioctl. pose proof type_close_ioctl.
  repeat case_decide; congruence.
Qed.

(** The inner switch on the requests the guest builds. *)
Lemma handle_ioctl_header m fd cmd :
  m !! p_host_fd = Some (VInt fd) → m !! p_cmd = Some (VUInt cmd) →
  cmd ≠ CIOCGSESSION → cmd ≠ CIOCFSESSION → cmd ≠ CIOCCRYPT →
  handle_ioctl dev header_request m = Some (m, []).
Proof.
  intros Hfd Hcmd ???. unfold handle_ioctl. simpl.
  rewrite (load_int_lookup _ _ _ Hfd), (load_uint_lookup _ _ _ Hcmd). simpl.
  by repeat case_decide.
Qed.

Lemma handle_ioctl_message m fd cmd :
  m !! p_host_fd = Some (VInt fd) → m !! p_cmd = Some (VUInt cmd) →
  cmd = CIOCFSESSION ∨ cmd = CIOCCRYPT →
  handle_ioctl dev message_request m = None.
Proof.
  intros Hfd Hcmd Hc. unfold handle_ioctl. simpl.
  rewrite (load_int_lookup _ _ _ Hfd), (load_uint_lookup _ _ _ Hcmd). simpl.
  pose proof gsession_fsession. pose proof gsession_crypt. pose proof fsession_crypt.
  destruct Hc as [-> | ->]; repeat case_decide; congruence.
Qed.

Lemma handle_ioctl_session m fd :
  m !! p_host_fd = Some (VInt fd) → m !! p_cmd = Some (VUInt CIOCGSESSION) →
  handle_ioctl dev session_request m = None.
Proof.
  intros Hfd Hcmd. unfold handle_ioctl. simpl.
  rewrite (load_int_lookup _ _ _ Hfd), (load_uint_lookup _ _ _ Hcmd). simpl.
  by case_decide.
Qed.

End HostFacts.


Section Dispatch.
Context `{Headers} (dev : crypto_backend).
Implicit Types (elem : VirtQueueElement) (m : kmem).




Lemma vq_handle_output_open elem m p q :
  region (out_sg elem) 0 = Some p →
  m !! p = Some (VUInt VIRTIO_CRYPTODEV_SYSCALL_TYPE_OPEN) →
  region (in_sg elem) 0 = Some q →
  vq_handle_output dev (Some elem) m
  = Some (<[q := VInt (host_open dev)]> m, [EvOpen; EvPush elem 0; EvNotify]).
Proof.
  intros Hp Hm Hq. unfold vq_handle_output.
  rewrite (handle_syscall_open dev elem m p Hp Hm).
  unfold handle_open. by rewrite Hq.
Qed.

Lemma vq_handle_output_close elem m p q fd :
  region (out_sg elem) 0 = Some p →
  m !! p = Some (VUInt VIRTIO_CRYPTODEV_SYSCALL_TYPE_CLOSE) →
  region (out_sg elem) 1 = Some q → m !! q = Some (VInt fd) →
  vq_handle_output dev (Some elem) m
  = Some (m, [EvClose fd; EvPush elem 0; EvNotify]).
Proof.
  intros Hp Hm Hq Hfd. unfold vq_handle_output.
  rewrite (handle_syscall_close dev elem m p Hp Hm).
  unfold handle_close. rewrite Hq. simpl.
  by rewrite (load_int_lookup _ _ _ Hfd).
Qed.

(** The guest's wait ends as soon as the dispatcher has pushed the element,
    and never when the dispatcher is undefined on it. *)
Lemma virtio_transport_pushed crdev elem m m' evs :
  vq_handle_output dev (Some elem) m
    = Some (m', evs ++ [EvPush elem 0; EvNotify]) →
  virtio_transport dev crdev elem m = Some m'.
Proof.
  intros Hv. unfold virtio_transport. rewrite Hv. simpl.
  case_decide as Hin; [done|]. destruct Hin. set_solver.
Qed.

Lemma virtio_transport_undefined crdev elem m :
  vq_handle_output dev (Some elem) m = None →
  virtio_transport dev crdev elem m = None.
Proof. intros Hv. unfold virtio_transport. by rewrite Hv. Qed.

Lemma virtio_transport_open crdev m :
  m !! p_syscall_type = Some (VUInt VIRTIO_CRYPTODEV_SYSCALL_TYPE_OPEN) →
  virtio_transport dev crdev open_request m
  = Some (<[p_host_fd := VInt (host_open dev)]> m).
Proof.
  intros Hm. apply (virtio_transport_pushed _ _ _ _ [EvOpen]).
  by apply (vq_handle_output_open open_request m p_syscall_type p_host_fd).
Qed.

(** [crypto_chrdev_open] over the real dispatcher, path by path. *)
Lemma crypto_chrdev_open_paths devs inode_minor nonseekable_ret crof_alloc st :
  crypto_chrdev_open (virtio_transport dev) devs inode_minor nonseekable_ret
    crof_alloc st
  = let st0 := kstore p_syscall_type (VUInt VIRTIO_CRYPTODEV_SYSCALL_OPEN) st in
    if decide (nonseekable_ret < 0) then
      Some (nonseekable_ret, kfree p_syscall_type st0)
    else
      match get_crypto_dev_by_minor devs inode_minor with
      | None => Some (- ENODEV, kfree p_syscall_type st0)
      | Some crdev =>
          if crof_alloc then
            let st1 :=
              set_private_data (Some p_crof)
                (kstore p_host_fd (VInt (host_open dev))
                   (kstore p_host_fd (VInt (-1))
                      (kstore p_crof (VDev crdev) st0))) in
            if decide (host_open dev < 0) then Some (- ENODEV, st1)
            else Some (nonseekable_ret, kfree p_syscall_type st1)
          else Some (- ENOMEM, kfree p_syscall_type st0)
      end.
Proof.
  unfold crypto_chrdev_open. cbv zeta.
  case_decide; [done|].
  destruct (get_crypto_dev_by_minor devs inode_minor) as [crdev|]; [|done].
  destruct crof_alloc; [|done]. cbn [negb].
  change (virtqueue_add_sgs _) with (Some open_request).
  cbn [mbind option_bind kernel kstore set_kernel set_private_data].
  rewrite virtio_transport_open by (rewrite agree_open; by simplify_map_eq).
  cbn [mbind option_bind kernel kstore set_kernel set_private_data].
  unfold load_int. rewrite lookup_insert_eq. cbn [mbind option_bind].
  by case_decide.
Qed.

End Dispatch.

(** * Facts about [crypto_chrdev_ioctl] as a whole *)

Section IoctlFacts.
Context `{Headers}.

(** Once the marshalling part has ended in a submission, the result is the
    value of [ret] there, whatever the transport delivers. *)
Lemma crypto_chrdev_ioctl_submit transport cmd arg st crdev fd ret t st1 elem k :
  file_open st crdev fd →
  ioctl_marshal cmd arg st = Submit ret t st1 →
  virtqueue_add_sgs t = Some elem →
  transport crdev elem (kernel st1) = Some k →
  crypto_chrdev_ioctl transport cmd arg st
  = Some (ret, ioctl_cleanup cmd (set_kernel k st1)).
Proof.
  intros (Hp & Hc & _) Hm Ht Hk. unfold crypto_chrdev_ioctl.
  rewrite Hp. simpl. unfold load_dev. rewrite Hc. simpl.
  rewrite Hm, Ht. simpl. by rewrite Hk.
Qed.

Lemma crypto_chrdev_ioctl_hang transport cmd arg st crdev fd ret t st1 elem :
  file_open st crdev fd →
  ioctl_marshal cmd arg st = Submit ret t st1 →
  virtqueue_add_sgs t = Some elem →
  transport crdev elem (kernel st1) = None →
  crypto_chrdev_ioctl transport cmd arg st = None.
Proof.
  intros (Hp & Hc & _) Hm Ht Hk. unfold crypto_chrdev_ioctl.
  rewrite Hp. simpl. unfold load_dev. rewrite Hc. simpl.
  rewrite Hm, Ht. simpl. by rewrite Hk.
Qed.

Lemma ioctl_cleanup_user cmd st : user (ioctl_cleanup cmd st) = user st.
Proof. by destruct (ioctl_cleanup_same_file cmd st) as [? _]. Qed.

(** The two cases that add only the message regions read neither [arg] nor
    the caller's memory. *)
Lemma ioctl_msgs_set_user hello n cmd u st :
  (ioctl_msgs hello n (ioctl_common cmd (set_user u st)).1
     (ioctl_common cmd (set_user u st)).2).2
  = set_user u
      (ioctl_msgs hello n (ioctl_common cmd st).1 (ioctl_common cmd st).2).2.
Proof.
  unfold ioctl_msgs, ioctl_common. cbv beta zeta. cbn [snd].
  by rewrite !kstore_set_user, !update_bytes_set_user.
Qed.

Lemma ioctl_msgs_kernel hello n cmd st fd :
  kernel st !! p_host_fd = Some (VInt fd) →
  let st1 :=
    (ioctl_msgs hello n (ioctl_common cmd st).1 (ioctl_common cmd st).2).2 in
  kernel st1 !! p_syscall_type = Some (VUInt VIRTIO_CRYPTODEV_SYSCALL_IOCTL)
  ∧ kernel st1 !! p_host_fd = Some (VInt fd)
  ∧ kernel st1 !! p_cmd = Some (VUInt cmd).
Proof.
  intros Hfd st1.
  pose proof (ioctl_common_header cmd st) as [Hsys Hcmd].
  destruct (ioctl_common_same_file cmd st) as (_ & _ & _ & Hc).
  destruct (ioctl_msgs_same_file hello n (ioctl_common cmd st).1
              (ioctl_common cmd st).2) as (_ & _ & _ & Hm).
  subst st1. split_and!.
  - by rewrite ioctl_msgs_header by auto.
  - by rewrite Hm, Hc.
  - by rewrite ioctl_msgs_header by auto.
Qed.

(** The dispatcher indexes writable regions that the message-only request
    does not have. *)
Lemma message_request_undefined (dev : crypto_backend) hello n cmd st fd :
  kernel st !! p_host_fd = Some (VInt fd) →
  cmd = CIOCFSESSION ∨ cmd = CIOCCRYPT →
  vq_handle_output dev (Some message_request)
    (kernel (ioctl_msgs hello n (ioctl_common cmd st).1
               (ioctl_common cmd st).2).2)
  = None.
Proof.
  intros Hfd Hcmd.
  destruct (ioctl_msgs_kernel hello n cmd st fd Hfd) as (Hsys & Hfd' & Hc).
  unfold vq_handle_output.
  rewrite (handle_syscall_ioctl dev message_request _ p_syscall_type);
    [|done|by rewrite <- agree_ioctl].
  by rewrite (handle_ioctl_message dev _ fd cmd).
Qed.

Lemma example_copies_succeed :
  copies_succeed (user example_session_state) 4096 example_session.
Proof. split; reflexivity. Qed.

End IoctlFacts.

(** * The claims *)

(** C1 (the code departs from it).  The guest encoder and the host
    dispatcher do not agree on the layout of a GET_SESSION request.  For
    every CIOCGSESSION ioctl whose copies from the caller succeed, the guest
    submits four readable regions (syscall_type, host_fd, cmd, output_msg; the
    key bytes are in no region) and two writable ones (input_msg, then the
    session descriptor).  The dispatcher takes the session descriptor from
    writable region 0, which is the guest's input_msg, the key from writable
    region 1, which is the guest's session descriptor, and the status from
    writable region 2, which does not exist: it is undefined on the request,
    and over this dispatcher the guest's call has no result. *)
Theorem get_session_layout_mismatch `{Headers} (dev : crypto_backend)
    (arg : Z) (st : guest) (crdev : crypto_device) (fd : Z) (s : session_op) :
  file_open st crdev fd →
  copies_succeed (user st) arg s →
  ∃ t st1,
    ioctl_marshal CIOCGSESSION arg st = Submit 0 t st1
    ∧ virtqueue_add_sgs t = Some session_request
    ∧ length (out_sg session_request) = 4%nat
    ∧ length (in_sg session_request) = 2%nat
    ∧ ¬ (p_session_key
         ∈ fmap iov_base (out_sg session_request ++ in_sg session_request))
    ∧ region (in_sg session_request) 0 = Some p_input_msg
    ∧ region (in_sg session_request) 1 = Some p_copied_session
    ∧ region (in_sg session_request) 2 = None
    ∧ vq_handle_output dev (Some session_request) (kernel st1) = None
    ∧ crypto_chrdev_ioctl (virtio_transport dev) CIOCGSESSION arg st = None.
Proof.
  intros Hopen Hcopies.
  destruct (ioctl_marshal_gsession arg st s Hcopies)
    as (t & st1 & Hm & Ht & Hsame & Hsys & Hcmd & _).
  pose proof (same_file_open _ _ _ _ Hsame Hopen) as (_ & _ & Hfd).
  assert (vq_handle_output dev (Some session_request) (kernel st1) = None)
    as Hnone.
  { unfold vq_handle_output.
    rewrite (handle_syscall_ioctl dev session_request _ p_syscall_type);
      [|done|by rewrite <- agree_ioctl].
    by rewrite (handle_ioctl_session dev _ fd). }
  exists t, st1. split_and!; try done.
  - simpl. intros Hin.
    repeat (apply elem_of_cons in Hin as [Hin|Hin]; [discriminate Hin|]).
    by apply elem_of_nil in Hin.
  - eapply crypto_chrdev_ioctl_hang; [done..|].
    by apply virtio_transport_undefined.
Qed.

Lemma get_session_layout_mismatch_witness :
  ∃ t st1,
    ioctl_marshal (H := lab_headers) 3224396646 4096 example_session_state
      = Submit 0 t st1
    ∧ virtqueue_add_sgs t = Some (session_request (H := lab_headers))
    ∧ length (out_sg (session_request (H := lab_headers))) = 4%nat
    ∧ length (in_sg (session_request (H := lab_headers))) = 2%nat
    ∧ ¬ (p_session_key
         ∈ fmap iov_base (out_sg (session_request (H := lab_headers))
                          ++ in_sg (session_request (H := lab_headers))))
    ∧ region (in_sg (session_request (H := lab_headers))) 0 = Some p_input_msg
    ∧ region (in_sg (session_request (H := lab_headers))) 1
      = Some p_copied_session
    ∧ region (in_sg (session_request (H := lab_headers))) 2 = None
    ∧ vq_handle_output (H := lab_headers) working_backend
        (Some (session_request (H := lab_headers))) (kernel st1) = None
    ∧ crypto_chrdev_ioctl (H := lab_headers)
        (virtio_transport (H := lab_headers) working_backend) 3224396646 4096
        example_session_state = None.
Proof.
  apply (get_session_layout_mismatch (H := lab_headers) working_backend 4096
           example_session_state example_device 3 example_session).
  - by repeat split.
  - apply example_copies_succeed.
Defined.

(** C2 (the code departs from it).  For every CIOCCRYPT ioctl the guest
    submits the three header regions and the two messages and nothing else:
    no crypt descriptor, no source, no destination, no IV.  The request and
    the kernel memory behind it are the same for every [arg] and every caller
    memory; when the request completes, whatever the host wrote, the result
    is 0 and the caller's memory is what it was (no destination buffer is
    copied back).  The dispatcher reads its source from writable region 1,
    which the request does not have, and is undefined on it. *)
Theorem crypt_transmits_no_buffers `{Headers} (dev : crypto_backend)
    (served : crypto_device → VirtQueueElement → kmem → kmem)
    (arg : Z) (st : guest) (crdev : crypto_device) (fd : Z) :
  file_open st crdev fd →
  ∃ t st1,
    ioctl_marshal CIOCCRYPT arg st = Submit 0 t st1
    ∧ virtqueue_add_sgs t = Some message_request
    ∧ (∀ arg' u', ioctl_marshal CIOCCRYPT arg' (set_user u' st)
                  = Submit 0 t (set_user u' st1))
    ∧ (∃ st', crypto_chrdev_ioctl (completes served) CIOCCRYPT arg st
              = Some (0, st')
              ∧ user st' = user st)
    ∧ region (in_sg message_request) 1 = None
    ∧ vq_handle_output dev (Some message_request) (kernel st1) = None.
Proof.
  intros Hopen. pose proof Hopen as (_ & _ & Hfd).
  eexists _, _. split; [apply ioctl_marshal_crypt|].
  split; [apply ioctl_msgs_table|].
  split.
  { intros arg' u'. rewrite ioctl_marshal_crypt. f_equal.
    apply ioctl_msgs_set_user. }
  split.
  { eexists. split.
    - eapply crypto_chrdev_ioctl_submit;
        [done|apply ioctl_marshal_crypt|apply ioctl_msgs_table|done].
    - rewrite ioctl_cleanup_user, set_kernel_user.
      destruct (ioctl_msgs_same_file "Hello HOST from ioctl CIOCCRYPT." 33
                  (ioctl_common CIOCCRYPT st).1 (ioctl_common CIOCCRYPT st).2)
        as [-> _].
      by destruct (ioctl_common_same_file CIOCCRYPT st) as [-> _]. }
  split; [done|].
  apply (message_request_undefined dev _ _ _ _ fd); auto.
Qed.

Lemma crypt_transmits_no_buffers_witness :
  ∃ t st1,
    ioctl_marshal (H := lab_headers) 3224396648 4096 example_open_state
      = Submit 0 t st1
    ∧ virtqueue_add_sgs t = Some message_request
    ∧ (∀ arg' u', ioctl_marshal (H := lab_headers) 3224396648 arg'
                    (set_user u' example_open_state)
                  = Submit 0 t (set_user u' st1))
    ∧ (∃ st', crypto_chrdev_ioctl (H := lab_headers) (completes failing_host)
                3224396648 4096 example_open_state = Some (0, st')
              ∧ user st' = user example_open_state)
    ∧ region (in_sg message_request) 1 = None
    ∧ vq_handle_output (H := lab_headers) working_backend
        (Some message_request) (kernel st1) = None.
Proof.
  apply (crypt_transmits_no_buffers (H := lab_headers) working_backend
           failing_host 4096 example_open_state example_device 3).
  by repeat split.
Defined.

(** C3 (the code departs from it).  For every CIOCGSESSION ioctl whose
    copies from the caller succeed, the session descriptor is the last
    writable region of the request and holds the caller's descriptor; the
    request completed, whatever the host wrote into it, the result is 0 and
    the caller's memory is what it was: the descriptor at [arg] is still the
    one the caller passed, nothing is copied back. *)
Theorem get_session_not_copied_back `{Headers}
    (served : crypto_device → VirtQueueElement → kmem → kmem)
    (arg : Z) (st : guest) (crdev : crypto_device) (fd : Z) (s : session_op) :
  file_open st crdev fd →
  copies_succeed (user st) arg s →
  ∃ t st1 st',
    ioctl_marshal CIOCGSESSION arg st = Submit 0 t st1
    ∧ virtqueue_add_sgs t = Some session_request
    ∧ in_sg session_request !! 1%nat
      = Some (iov p_copied_session sizeof_session_op)
    ∧ kernel st1 !! p_copied_session = Some (VSessionOp s)
    ∧ crypto_chrdev_ioctl (completes served) CIOCGSESSION arg st
      = Some (0, st')
    ∧ user st' = user st
    ∧ user st' !! arg = Some (VSessionOp s).
Proof.
  intros Hopen Hcopies.
  destruct (ioctl_marshal_gsession arg st s Hcopies)
    as (t & st1 & Hm & Ht & Hsame & _ & _ & Hsess).
  exists t, st1, (ioctl_cleanup CIOCGSESSION
                    (set_kernel (served crdev session_request (kernel st1)) st1)).
  split; [done|]. split; [done|]. split; [done|]. split; [done|].
  split; [by eapply crypto_chrdev_ioctl_submit|].
  assert (user (ioctl_cleanup CIOCGSESSION
                  (set_kernel (served crdev session_request (kernel st1)) st1))
          = user st) as Hu.
  { rewrite ioctl_cleanup_user, set_kernel_user. by destruct Hsame. }
  split; [done|]. rewrite Hu. by destruct Hcopies.
Qed.

Lemma get_session_not_copied_back_witness :
  ∃ t st1 st',
    ioctl_marshal (H := lab_headers) 3224396646 4096 example_session_state
      = Submit 0 t st1
    ∧ virtqueue_add_sgs t = Some (session_request (H := lab_headers))
    ∧ in_sg (session_request (H := lab_headers)) !! 1%nat
      = Some (iov p_copied_session 48)
    ∧ kernel st1 !! p_copied_session = Some (VSessionOp example_session)
    ∧ crypto_chrdev_ioctl (H := lab_headers) (completes assigning_host)
        3224396646 4096 example_session_state = Some (0, st')
    ∧ user st' = user example_session_state
    ∧ user st' !! 4096 = Some (VSessionOp example_session).
Proof.
  apply (get_session_not_copied_back (H := lab_headers) assigning_host 4096
           example_session_state example_device 3 example_session).
  - by repeat split.
  - apply example_copies_succeed.
Defined.

(** C4 (the code departs from it).  For every CIOCFSESSION ioctl the guest
    submits the three header regions and the two messages and nothing else.
    The request and the kernel memory behind it are the same for every [arg]
    and every caller memory, so the session identifier the caller names is
    not transmitted.  The dispatcher takes its session identifier from
    writable region 0, which is the guest's input_msg, and its status from
    writable region 1, which does not exist: it is undefined on the request,
    and over this dispatcher the guest's call has no result. *)
Theorem free_session_id_not_transmitted `{Headers} (dev : crypto_backend)
    (arg : Z) (st : guest) (crdev : crypto_device) (fd : Z) :
  file_open st crdev fd →
  ∃ t st1,
    ioctl_marshal CIOCFSESSION arg st = Submit 0 t st1
    ∧ virtqueue_add_sgs t = Some message_request
    ∧ (∀ arg' u', ioctl_marshal CIOCFSESSION arg' (set_user u' st)
                  = Submit 0 t (set_user u' st1))
    ∧ region (in_sg message_request) 0 = Some p_input_msg
    ∧ region (in_sg message_request) 1 = None
    ∧ vq_handle_output dev (Some message_request) (kernel st1) = None
    ∧ crypto_chrdev_ioctl (virtio_transport dev) CIOCFSESSION arg st = None.
Proof.
  intros Hopen. pose proof Hopen as (_ & _ & Hfd).
  eexists _, _. split; [apply ioctl_marshal_fsession|].
  split; [apply ioctl_msgs_table|].
  split.
  { intros arg' u'. rewrite ioctl_marshal_fsession. f_equal.
    apply ioctl_msgs_set_user. }
  do 2 (split; [done|]).
  assert (vq_handle_output dev (Some message_request)
            (kernel (ioctl_msgs "Hello HOST from ioctl CIOCFSESSION." 36
                       (ioctl_common CIOCFSESSION st).1
                       (ioctl_common CIOCFSESSION st).2).2) = None) as Hnone.
  { apply (message_request_undefined dev _ _ _ _ fd); auto. }
  split; [done|].
  eapply crypto_chrdev_ioctl_hang;
    [done|apply ioctl_marshal_fsession|apply ioctl_msgs_table|].
  by apply virtio_transport_undefined.
Qed.

Lemma free_session_id_not_transmitted_witness :
  ∃ t st1,
    ioctl_marshal (H := lab_headers) 1074029415 7 example_open_state
      = Submit 0 t st1
    ∧ virtqueue_add_sgs t = Some message_request
    ∧ (∀ arg' u', ioctl_marshal (H := lab_headers) 1074029415 arg'
                    (set_user u' example_open_state)
                  = Submit 0 t (set_user u' st1))
    ∧ region (in_sg message_request) 0 = Some p_input_msg
    ∧ region (in_sg message_request) 1 = None
    ∧ vq_handle_output (H := lab_headers) working_backend
        (Some message_request) (kernel st1) = None
    ∧ crypto_chrdev_ioctl (H := lab_headers)
        (virtio_transport (H := lab_headers) working_backend) 1074029415 7
        example_open_state = None.
Proof.
  apply (free_session_id_not_transmitted (H := lab_headers) working_backend 7
           example_open_state example_device 3).
  by repeat split.
Defined.

(** C5, as the specification states it, fails: with device 0 registered, a
    host whose open succeeds, and no memory for the open-file structure,
    [crypto_chrdev_open] returns -ENOMEM although the minor is known and the
    host wrote no negative handle. *)
Lemma open_enomem_counterexample :
  ¬ spec_open_failure (H := lab_headers) working_backend [example_device] 0 0
      false empty_state.
Proof.
  intros Hspec.
  destruct (Hspec (- ENOMEM) empty_state) as [Hfail _]; [reflexivity|].
  destruct Hfail as [Hnone | Hneg]; [done|discriminate Hnone|].
  vm_compute in Hneg. discriminate Hneg.
Qed.

(** C5 (amended).  Over the real dispatcher [crypto_chrdev_open] always
    returns, and it fails (returns a value other than 0) exactly when
    [nonseekable_open] reports something other than 0, or no registered
    device has the requested minor (-ENODEV), or the open-file structure
    cannot be allocated (-ENOMEM), or the host wrote a negative handle into
    the one writable region of the OPEN request (-ENODEV).  In every other
    case it returns 0 and the non-negative host handle is stored in the newly
    allocated structure that [private_data] points to.  The host-side OPEN
    dispatch never fails: whatever the real open returns, the handle is
    written into writable region 0 and the element is pushed and notified. *)
Theorem open_fails_exactly_when `{Headers} (dev : crypto_backend)
    (devs : list crypto_device) (inode_minor nonseekable_ret : Z)
    (crof_alloc : bool) (st : guest) :
  (∃ ret st',
     crypto_chrdev_open (virtio_transport dev) devs inode_minor nonseekable_ret
       crof_alloc st = Some (ret, st')
     ∧ (ret ≠ 0 ↔ nonseekable_ret ≠ 0
                  ∨ get_crypto_dev_by_minor devs inode_minor = None
                  ∨ crof_alloc = false
                  ∨ host_open dev < 0)
     ∧ (0 ≤ nonseekable_ret →
        get_crypto_dev_by_minor devs inode_minor = None → ret = - ENODEV)
     ∧ (0 ≤ nonseekable_ret →
        get_crypto_dev_by_minor devs inode_minor ≠ None →
        crof_alloc = false → ret = - ENOMEM)
     ∧ (0 ≤ nonseekable_ret →
        get_crypto_dev_by_minor devs inode_minor ≠ None →
        crof_alloc = true → host_open dev < 0 → ret = - ENODEV)
     ∧ (ret = 0 →
        ∃ crdev, get_crypto_dev_by_minor devs inode_minor = Some crdev
                 ∧ file_open st' crdev (host_open dev)
                 ∧ 0 ≤ host_open dev))
  ∧ (∀ elem m p q,
       region (out_sg elem) 0 = Some p →
       m !! p = Some (VUInt VIRTIO_CRYPTODEV_SYSCALL_TYPE_OPEN) →
       region (in_sg elem) 0 = Some q →
       vq_handle_output dev (Some elem) m
       = Some (<[q := VInt (host_open dev)]> m,
               [EvOpen; EvPush elem 0; EvNotify])).
Proof.
  split; [|by apply vq_handle_output_open].
  rewrite crypto_chrdev_open_paths. cbv zeta. unfold ENODEV, ENOMEM.
  case_decide as Hns.
  { eexists _, _. split; [done|]. split_and!; intros; lia. }
  destruct (get_crypto_dev_by_minor devs inode_minor) as [crdev|] eqn:Hdev.
  2:{ eexists _, _. split; [done|]. split_and!; try done.
      split; [by right; left|done]. }
  destruct crof_alloc.
  2:{ eexists _, _. split; [done|]. split_and!; try done.
      split; [by right; right; left|done]. }
  case_decide as Hfd.
  { eexists _, _. split; [done|]. split_and!; try done.
    split; [by right; right; right|done]. }
  eexists _, _. split; [done|]. split_and!; try done; try (intros; lia).
  - split; [by left|]. intros [?|[?|[?|?]]]; [done|done|done|lia].
  - intros ->. exists crdev. split; [done|]. split; [|lia].
    unfold file_open. simpl. by simplify_map_eq.
Qed.

Lemma open_fails_exactly_when_witness :
  (∃ ret st',
     crypto_chrdev_open (H := lab_headers)
       (virtio_transport (H := lab_headers) failing_backend)
       [example_device] 0 0 true empty_state = Some (ret, st')
     ∧ (ret ≠ 0 ↔ 0 ≠ 0
                  ∨ get_crypto_dev_by_minor [example_device] 0 = None
                  ∨ true = false
                  ∨ host_open failing_backend < 0)
     ∧ (0 ≤ 0 →
        get_crypto_dev_by_minor [example_device] 0 = None → ret = - ENODEV)
     ∧ (0 ≤ 0 →
        get_crypto_dev_by_minor [example_device] 0 ≠ None →
        true = false → ret = - ENOMEM)
     ∧ (0 ≤ 0 →
        get_crypto_dev_by_minor [example_device] 0 ≠ None →
        true = true → host_open failing_backend < 0 → ret = - ENODEV)
     ∧ (ret = 0 →
        ∃ crdev, get_crypto_dev_by_minor [example_device] 0 = Some crdev
                 ∧ file_open st' crdev (host_open failing_backend)
                 ∧ 0 ≤ host_open failing_backend))
  ∧ (∀ elem m p q,
       region (out_sg elem) 0 = Some p →
       m !! p = Some (VUInt 0) →
       region (in_sg elem) 0 = Some q →
       vq_handle_output (H := lab_headers) failing_backend (Some elem) m
       = Some (<[q := VInt (host_open failing_backend)]> m,
               [EvOpen; EvPush elem 0; EvNotify])).
Proof.
  exact (open_fails_exactly_when (H := lab_headers) failing_backend
           [example_device] 0 0 true empty_state).
Defined.




(** C7.  For every ioctl on an open file whose command is none of the three
    recognised ones: the guest submits the three header regions
    (syscall_type, host_fd, cmd) and no writable region; the dispatcher makes
    no call of the real device, leaves the memory as it is and pushes and
    notifies; the ioctl returns 0, the caller's memory is unchanged and the
    file is still open on the same device with the same host handle. *)
Theorem unknown_ioctl_passthrough `{Headers} (dev : crypto_backend)
    (cmd arg : Z) (st : guest) (crdev : crypto_device) (fd : Z) :
  cmd ≠ CIOCGSESSION → cmd ≠ CIOCFSESSION → cmd ≠ CIOCCRYPT →
  file_open st crdev fd →
  ∃ t st1,
    ioctl_marshal cmd arg st = Submit 0 t st1
    ∧ virtqueue_add_sgs t = Some header_request
    ∧ vq_handle_output dev (Some header_request) (kernel st1)
      = Some (kernel st1, [EvPush header_request 0; EvNotify])
    ∧ crypto_chrdev_ioctl (virtio_transport dev) cmd arg st
      = Some (0, ioctl_cleanup cmd st1)
    ∧ user (ioctl_cleanup cmd st1) = user st
    ∧ file_open (ioctl_cleanup cmd st1) crdev fd.
Proof.
  intros Hg Hf Hc Hopen.
  exists (ioctl_common cmd st).1, (ioctl_common cmd st).2.
  pose proof (ioctl_common_same_file cmd st) as Hsame.
  pose proof (ioctl_common_header cmd st) as [Hsys Hcmd].
  pose proof (same_file_open _ _ _ _ Hsame Hopen) as (_ & _ & Hfd).
  assert (vq_handle_output dev (Some header_request)
            (kernel (ioctl_common cmd st).2)
          = Some (kernel (ioctl_common cmd st).2,
                  [] ++ [EvPush header_request 0; EvNotify]))
    as Hdisp.
  { unfold vq_handle_output.
    rewrite (handle_syscall_ioctl dev header_request _ p_syscall_type);
      [|done|by rewrite <- agree_ioctl].
    by rewrite (handle_ioctl_header dev _ fd cmd). }
  split; [by apply ioctl_marshal_unknown|].
  split; [apply ioctl_common_table|].
  split; [done|].
  split.
  { erewrite crypto_chrdev_ioctl_submit;
      [|done|by apply ioctl_marshal_unknown|apply ioctl_common_table
       |by eapply virtio_transport_pushed].
    by destruct (ioctl_common cmd st).2. }
  split.
  { rewrite ioctl_cleanup_user. by destruct Hsame. }
  eapply same_file_open; [|done].
  eapply same_file_trans; [done|apply ioctl_cleanup_same_file].
Qed.

Lemma unknown_ioctl_passthrough_witness :
  ∃ t st1,
    ioctl_marshal (H := lab_headers) 77 0 example_open_state = Submit 0 t st1
    ∧ virtqueue_add_sgs t = Some header_request
    ∧ vq_handle_output (H := lab_headers) failing_backend
        (Some header_request) (kernel st1)
      = Some (kernel st1, [EvPush header_request 0; EvNotify])
    ∧ crypto_chrdev_ioctl (H := lab_headers)
        (virtio_transport (H := lab_headers) failing_backend) 77 0
        example_open_state
      = Some (0, ioctl_cleanup (H := lab_headers) 77 st1)
    ∧ user (ioctl_cleanup (H := lab_headers) 77 st1) = user example_open_state
    ∧ file_open (ioctl_cleanup (H := lab_headers) 77 st1) example_device 3.
Proof.
  apply (unknown_ioctl_passthrough (H := lab_headers) failing_backend 77 0
           example_open_state example_device 3);
    try by (intros E; vm_compute in E).
  by repeat split.
Defined.

(** C8.  For every release of an open file: the CLOSE request has two
    readable regions, syscall_type and the stored host handle, and no
    writable one; whenever the request completes, whatever the host did to
    the memory, the open-file structure is freed and the result is 0.  Over
    the real dispatcher the request does complete: the dispatcher closes the
    stored handle, pushes and notifies, and the release returns 0 with the
    structure freed. *)
Theorem release_always_frees `{Headers}
    (served : crypto_device → VirtQueueElement → kmem → kmem)
    (st : guest) (crdev : crypto_device) (fd : Z) :
  file_open st crdev fd →
  let submitted :=
    <[p_syscall_type := VUInt VIRTIO_CRYPTODEV_SYSCALL_CLOSE]> (kernel st) in
  (∃ st',
     crypto_chrdev_release (completes served) st = Some (0, st')
     ∧ kernel st'
       = delete p_host_fd (delete p_crof (delete p_syscall_type
           (served crdev close_request submitted)))
     ∧ kernel st' !! p_crof = None
     ∧ kernel st' !! p_host_fd = None
     ∧ user st' = user st)
  ∧ in_sg close_request = []
  ∧ region (out_sg close_request) 1 = Some p_host_fd
  ∧ submitted !! p_host_fd = Some (VInt fd)
  ∧ (∀ dev : crypto_backend,
       vq_handle_output dev (Some close_request) submitted
       = Some (submitted, [EvClose fd; EvPush close_request 0; EvNotify])
       ∧ ∃ st', crypto_chrdev_release (virtio_transport dev) st = Some (0, st')
                ∧ kernel st' !! p_crof = None
                ∧ kernel st' !! p_host_fd = None).
Proof.
  intros (Hp & Hc & Hfd) submitted.
  assert (submitted !! p_host_fd = Some (VInt fd)) as Hfd'.
  { subst submitted. by simplify_map_eq. }
  assert (∀ transport k,
    transport crdev close_request submitted = Some k →
    crypto_chrdev_release transport st
    = Some (0, kfree p_host_fd (kfree p_crof (kfree p_syscall_type
               (set_kernel k (kstore p_syscall_type
                  (VUInt VIRTIO_CRYPTODEV_SYSCALL_CLOSE) st)))))) as Hrel.
  { intros transport k Hk. unfold crypto_chrdev_release.
    rewrite Hp. cbn [mbind option_bind]. unfold load_dev. rewrite Hc.
    change (virtqueue_add_sgs _) with (Some close_request).
    cbn [mbind option_bind kernel kstore set_kernel].
    fold submitted. by rewrite Hk. }
  split.
  { eexists. split; [by apply Hrel|]. simpl. split; [done|].
    by simplify_map_eq. }
  do 3 (split; [done|]).
  intros dev.
  assert (vq_handle_output dev (Some close_request) submitted
          = Some (submitted, [EvClose fd] ++ [EvPush close_request 0; EvNotify]))
    as Hdisp.
  { apply (vq_handle_output_close dev close_request _ p_syscall_type p_host_fd);
      try done.
    subst submitted. rewrite <- agree_close. by simplify_map_eq. }
  split; [done|].
  eexists. split.
  - apply Hrel. by eapply virtio_transport_pushed.
  - simpl. by simplify_map_eq.
Qed.

Lemma release_always_frees_witness :
  (∃ st',
     crypto_chrdev_release (H := lab_headers) (completes failing_host)
       example_open_state = Some (0, st')
     ∧ kernel st'
       = delete p_host_fd (delete p_crof (delete p_syscall_type
           (failing_host example_device close_request
              (<[p_syscall_type := VUInt 1]> (kernel example_open_state)))))
     ∧ kernel st' !! p_crof = None
     ∧ kernel st' !! p_host_fd = None
     ∧ user st' = user example_open_state)
  ∧ in_sg close_request = []
  ∧ region (out_sg close_request) 1 = Some p_host_fd
  ∧ <[p_syscall_type := VUInt 1]> (kernel example_open_state) !! p_host_fd
    = Some (VInt 3)
  ∧ (∀ dev : crypto_backend,
       vq_handle_output (H := lab_headers) dev (Some close_request)
         (<[p_syscall_type := VUInt 1]> (kernel example_open_state))
       = Some (<[p_syscall_type := VUInt 1]> (kernel example_open_state),
               [EvClose 3; EvPush close_request 0; EvNotify])
       ∧ ∃ st', crypto_chrdev_release (H := lab_headers)
                  (virtio_transport (H := lab_headers) dev) example_open_state
                = Some (0, st')
                ∧ kernel st' !! p_crof = None
                ∧ kernel st' !! p_host_fd = None).
Proof.
  apply (release_always_frees (H := lab_headers) failing_host
           example_open_state example_device 3).
  by repeat split.
Defined.

(** C9.  For every ioctl on an open file in which the copies from the caller
    succeed (a condition only on CIOCGSESSION: the other commands copy
    nothing), and for every host that completes the request, whatever it
    wrote into the memory: the ioctl returns 0. *)
Theorem ioctl_returns_zero `{Headers}
    (served : crypto_device → VirtQueueElement → kmem → kmem)
    (cmd arg : Z) (st : guest) (crdev : crypto_device) (fd : Z) :
  file_open st crdev fd →
  (cmd = CIOCGSESSION → ∃ s, copies_succeed (user st) arg s) →
  ∃ st', crypto_chrdev_ioctl (completes served) cmd arg st = Some (0, st').
Proof.
  intros Hopen Hcopies.
  destruct (decide (cmd = CIOCGSESSION)) as [-> | Hg].
  { destruct Hcopies as [s Hs]; [done|].
    destruct (ioctl_marshal_gsession arg st s Hs) as (t & st1 & Hm & Ht & _).
    eexists. by eapply crypto_chrdev_ioctl_submit. }
  destruct (decide (cmd = CIOCFSESSION)) as [-> | Hf].
  { eexists. eapply crypto_chrdev_ioctl_submit; [done| | |done].
    - apply ioctl_marshal_fsession.
    - apply ioctl_msgs_table. }
  destruct (decide (cmd = CIOCCRYPT)) as [-> | Hc].
  { eexists. eapply crypto_chrdev_ioctl_submit; [done| | |done].
    - apply ioctl_marshal_crypt.
    - apply ioctl_msgs_table. }
  eexists. eapply crypto_chrdev_ioctl_submit; [done| | |done].
  - by apply ioctl_marshal_unknown.
  - apply ioctl_common_table.
Qed.

Lemma ioctl_returns_zero_witness :
  ∃ st', crypto_chrdev_ioctl (H := lab_headers) (completes failing_host)
           3224396646 4096 example_session_state = Some (0, st').
Proof.
  apply (ioctl_returns_zero (H := lab_headers) failing_host 3224396646 4096
           example_session_state example_device 3).
  - by repeat split.
  - intros _. exists example_session. apply example_copies_succeed.
Defined.

(** C10.  For every buffer, count and file position, [crypto_chrdev_read]
    returns -EINVAL (-22) and leaves the guest state, the caller's memory in
    it, and the file position as they were. *)
Theorem read_is_einval (usrbuf cnt f_pos : Z) (st : guest) :
  crypto_chrdev_read usrbuf cnt f_pos st = (- EINVAL, st, f_pos)
  ∧ - EINVAL = -22.
Proof. split; reflexivity. Qed.

(** * Further properties of the code *)

(** ** The device list *)

(** X1.  [get_crypto_dev_by_minor] returns a device exactly when it is the
    first device of the list with the requested minor number. *)
Theorem get_crypto_dev_by_minor_first (devs : list crypto_device) (m : Z)
    (crdev : crypto_device) :
  get_crypto_dev_by_minor devs m = Some crdev
  ↔ ∃ before after,
      devs = before ++ crdev :: after
      ∧ minor crdev = m
      ∧ Forall (λ d, minor d ≠ m) before.
Proof.
  induction devs as [|d devs IH]; simpl.
  - split; [done|]. intros (before & after & Hd & _). by destruct before.
  - case_decide as Hm.
    + split.
      * intros [= ->]. exists [], devs. by repeat split.
      * intros (before & after & Hd & Hc & Hb).
        destruct before as [|d' before]; simpl in Hd.
        -- by injection Hd as ->.
        -- injection Hd as -> _. by inversion_clear Hb.
    + rewrite IH. split.
      * intros (before & after & -> & Hc & Hb).
        exists (d :: before), after. repeat split; [done|]. by constructor.
      * intros (before & after & Hd & Hc & Hb).
        destruct before as [|d' before]; simpl in Hd.
        -- injection Hd as -> _. done.
        -- injection Hd as -> ->. inversion_clear Hb.
           by exists before, after.
Qed.

(** X2.  [get_crypto_dev_by_minor] returns NULL exactly when no device of
    the list has the requested minor number. *)
Theorem get_crypto_dev_by_minor_none (devs : list crypto_device) (m : Z) :
  get_crypto_dev_by_minor devs m = None ↔ Forall (λ d, minor d ≠ m) devs.
Proof.
  induction devs as [|d devs IH]; simpl.
  - by split.
  - case_decide as Hm.
    + split; [done|]. intros Hall. by inversion_clear Hall.
    + rewrite IH. split.
      * intros. by constructor.
      * intros Hall. by inversion_clear Hall.
Qed.

(** ** Opening and releasing *)

Lemma kstore_private_data p v st :
  private_data (kstore p v st) = private_data st.
Proof. done. Qed.

Lemma update_bytes_lookup p f st bs :
  kernel st !! p = Some (VBytes bs) →
  kernel (update_bytes p f st) !! p = Some (VBytes (f bs)).
Proof.
  intros Hp. unfold update_bytes. rewrite Hp. simpl. by rewrite lookup_insert_eq.
Qed.

(** Rewrites the caller's memory and [private_data] of a state reached by
    stores into kernel objects back to those of the state it started from. *)
Ltac guest_frame :=
  repeat first
    [ rewrite kstore_user | rewrite update_bytes_user
    | rewrite kstore_private_data | rewrite update_bytes_private_data ].

Section OpenRelease.
Context `{Headers}.

Lemma virtio_transport_close (dev : crypto_backend) crdev m fd :
  m !! p_syscall_type = Some (VUInt VIRTIO_CRYPTODEV_SYSCALL_TYPE_CLOSE) →
  m !! p_host_fd = Some (VInt fd) →
  virtio_transport dev crdev close_request m = Some m.
Proof.
  intros Hm Hfd. apply (virtio_transport_pushed _ _ _ _ _ [EvClose fd]).
  by apply (vq_handle_output_close dev close_request m p_syscall_type p_host_fd).
Qed.

Lemma crypto_chrdev_release_submit transport st crdev fd k :
  file_open st crdev fd →
  transport crdev close_request
    (<[p_syscall_type := VUInt VIRTIO_CRYPTODEV_SYSCALL_CLOSE]> (kernel st))
    = Some k →
  crypto_chrdev_release transport st
  = Some (0, kfree p_host_fd (kfree p_crof (kfree p_syscall_type
               (set_kernel k (kstore p_syscall_type
                  (VUInt VIRTIO_CRYPTODEV_SYSCALL_CLOSE) st))))).
Proof.
  intros (Hp & Hc & Hfd) Hk. unfold crypto_chrdev_release.
  rewrite Hp. cbn [mbind option_bind]. unfold load_dev. rewrite Hc.
  change (virtqueue_add_sgs _) with (Some close_request).
  cbn [mbind option_bind kernel kstore set_kernel].
  by rewrite Hk.
Qed.

End OpenRelease.

(** X3.  When [nonseekable_open] fails, the minor is unknown or the
    open-file structure cannot be allocated, [crypto_chrdev_open] returns a
    negative value without using the transport at all (the result is the same
    for every transport, also one that never completes) and leaves the guest
    state exactly as it found it: [syscall_type] is freed again and
    [private_data] is not set. *)
Theorem open_failure_sends_nothing `{Headers}
    (transport : crypto_device → VirtQueueElement → kmem → option kmem)
    (devs : list crypto_device) (inode_minor nonseekable_ret : Z)
    (crof_alloc : bool) (st : guest) :
  kernel st !! p_syscall_type = None →
  nonseekable_ret < 0 ∨ get_crypto_dev_by_minor devs inode_minor = None
    ∨ crof_alloc = false →
  ∃ ret,
    crypto_chrdev_open transport devs inode_minor nonseekable_ret crof_alloc st
      = Some (ret, st)
    ∧ ret < 0.
Proof.
  intros Hfresh Hfail.
  assert (kfree p_syscall_type
            (kstore p_syscall_type (VUInt VIRTIO_CRYPTODEV_SYSCALL_OPEN) st)
          = st) as Hback.
  { destruct st as [u k pd]. unfold kfree, kstore, set_kernel. simpl in *.
    f_equal. by rewrite delete_insert_id. }
  unfold crypto_chrdev_open. cbv zeta.
  case_decide as Hns.
  { exists nonseekable_ret. by rewrite Hback. }
  destruct (get_crypto_dev_by_minor devs inode_minor) as [crdev|].
  2:{ exists (- ENODEV). by rewrite Hback. }
  destruct crof_alloc.
  { by destruct Hfail as [?|[?|?]]. }
  exists (- ENOMEM). by rewrite Hback.
Qed.

Lemma open_failure_sends_nothing_witness :
  ∃ ret,
    crypto_chrdev_open (H := lab_headers) (λ _ _ _, None) [example_device] 5 0
      true empty_state = Some (ret, empty_state)
    ∧ ret < 0.
Proof.
  apply (open_failure_sends_nothing (H := lab_headers) (λ _ _ _, None)
           [example_device] 5 0 true empty_state).
  - reflexivity.
  - right. left. reflexivity.
Defined.

(** X4.  When the host writes a negative handle, [crypto_chrdev_open]
    returns -ENODEV by its early [return]: [syscall_type] and the open-file
    structure stay allocated and [private_data] keeps pointing to the
    structure, which holds the negative handle. *)
Theorem open_rejected_keeps_allocations `{Headers} (dev : crypto_backend)
    (devs : list crypto_device) (inode_minor nonseekable_ret : Z)
    (st : guest) (crdev : crypto_device) :
  0 ≤ nonseekable_ret →
  get_crypto_dev_by_minor devs inode_minor = Some crdev →
  host_open dev < 0 →
  ∃ st',
    crypto_chrdev_open (virtio_transport dev) devs inode_minor nonseekable_ret
      true st = Some (- ENODEV, st')
    ∧ private_data st' = Some p_crof
    ∧ kernel st' !! p_syscall_type
      = Some (VUInt VIRTIO_CRYPTODEV_SYSCALL_OPEN)
    ∧ kernel st' !! p_crof = Some (VDev crdev)
    ∧ kernel st' !! p_host_fd = Some (VInt (host_open dev)).
Proof.
  intros Hns Hdev Hneg. rewrite crypto_chrdev_open_paths. cbv zeta.
  case_decide; [lia|]. rewrite Hdev. case_decide; [|lia].
  eexists. split; [done|]. simpl. by simplify_map_eq.
Qed.

Lemma open_rejected_keeps_allocations_witness :
  ∃ st',
    crypto_chrdev_open (H := lab_headers)
      (virtio_transport (H := lab_headers) failing_backend) [example_device]
      0 0 true empty_state = Some (- ENODEV, st')
    ∧ private_data st' = Some p_crof
    ∧ kernel st' !! p_syscall_type = Some (VUInt 0)
    ∧ kernel st' !! p_crof = Some (VDev example_device)
    ∧ kernel st' !! p_host_fd = Some (VInt (-1)).
Proof.
  apply (open_rejected_keeps_allocations (H := lab_headers) failing_backend
           [example_device] 0 0 empty_state example_device);
    [done|reflexivity|done].
Defined.

(** X5.  A successful open followed by a release, over the real dispatcher:
    the open leaves the file open with the handle the host returned and
    [syscall_type] freed; the release makes the host close that very handle,
    returns 0 and leaves kernel memory and the caller's memory exactly as they
    were before the open.  [private_data] is not reset and still points to
    the freed structure. *)
Theorem open_release_round_trip `{Headers} (dev : crypto_backend)
    (devs : list crypto_device) (inode_minor nonseekable_ret : Z)
    (st : guest) (crdev : crypto_device) :
  0 ≤ nonseekable_ret →
  get_crypto_dev_by_minor devs inode_minor = Some crdev →
  0 ≤ host_open dev →
  kernel st !! p_syscall_type = None →
  kernel st !! p_crof = None →
  kernel st !! p_host_fd = None →
  ∃ st1 st2,
    crypto_chrdev_open (virtio_transport dev) devs inode_minor nonseekable_ret
      true st = Some (nonseekable_ret, st1)
    ∧ file_open st1 crdev (host_open dev)
    ∧ kernel st1 !! p_syscall_type = None
    ∧ vq_handle_output dev (Some close_request)
        (<[p_syscall_type := VUInt VIRTIO_CRYPTODEV_SYSCALL_CLOSE]> (kernel st1))
      = Some (<[p_syscall_type := VUInt VIRTIO_CRYPTODEV_SYSCALL_CLOSE]>
                (kernel st1),
              [EvClose (host_open dev); EvPush close_request 0; EvNotify])
    ∧ crypto_chrdev_release (virtio_transport dev) st1 = Some (0, st2)
    ∧ kernel st2 = kernel st
    ∧ user st2 = user st
    ∧ private_data st2 = Some p_crof.
Proof.
  intros Hns Hdev Hfd H1 H2 H3. rewrite crypto_chrdev_open_paths. cbv zeta.
  case_decide; [lia|]. rewrite Hdev. case_decide; [lia|].
  eexists _, _. split; [done|].
  match goal with |- file_open ?s _ _ ∧ _ => set (st1 := s) end.
  assert (file_open st1 crdev (host_open dev)) as Hopen.
  { subst st1. unfold file_open. simpl. by simplify_map_eq. }
  split; [done|].
  split; [subst st1; simpl; by simplify_map_eq|].
  assert (<[p_syscall_type := VUInt VIRTIO_CRYPTODEV_SYSCALL_CLOSE]> (kernel st1)
            !! p_host_fd = Some (VInt (host_open dev))) as Hfd'.
  { destruct Hopen as (_ & _ & ?). by simplify_map_eq. }
  split.
  { apply (vq_handle_output_close dev close_request _ p_syscall_type p_host_fd);
      try done.
    rewrite <- agree_close. by simplify_map_eq. }
  split.
  { apply (crypto_chrdev_release_submit _ _ crdev (host_open dev)); [done|].
    apply (virtio_transport_close dev _ _ (host_open dev)); [|done].
    rewrite <- agree_close. by simplify_map_eq. }
  split_and!; try done.
  subst st1. simpl. apply map_eq. intros p.
  destruct p; by simplify_map_eq.
Qed.

Lemma open_release_round_trip_witness :
  ∃ st1 st2,
    crypto_chrdev_open (H := lab_headers)
      (virtio_transport (H := lab_headers) working_backend) [example_device]
      0 0 true empty_state = Some (0, st1)
    ∧ file_open st1 example_device 3
    ∧ kernel st1 !! p_syscall_type = None
    ∧ vq_handle_output (H := lab_headers) working_backend (Some close_request)
        (<[p_syscall_type := VUInt 1]> (kernel st1))
      = Some (<[p_syscall_type := VUInt 1]> (kernel st1),
              [EvClose 3; EvPush close_request 0; EvNotify])
    ∧ crypto_chrdev_release (H := lab_headers)
        (virtio_transport (H := lab_headers) working_backend) st1
      = Some (0, st2)
    ∧ kernel st2 = kernel empty_state
    ∧ user st2 = user empty_state
    ∧ private_data st2 = Some p_crof.
Proof.
  apply (open_release_round_trip (H := lab_headers) working_backend
           [example_device] 0 0 empty_state example_device);
    try reflexivity; done.
Defined.

(** ** The paths of [crypto_chrdev_ioctl] *)

(** What a successful copy of [n] key bytes delivers. *)
Lemma copy_bytes_from_user_bytes um a n bs :
  um !! a = Some (VBytes bs) → 0 ≤ n ≤ Z.of_nat (length bs) →
  copy_bytes_from_user um (UserAddr a) n = (0, take (Z.to_nat n) bs).
Proof.
  intros Ha Hn. unfold copy_bytes_from_user. case_decide as H0.
  { subst. by rewrite take_0. }
  rewrite Ha. f_equal. rewrite length_take. lia.
Qed.


(** The key buffer after the terminating store: the bytes copied, then one
    NUL, when [keylen + 1] does not wrap. *)
Lemma session_key_bytes (got : list byte) (n : Z) :
  length got = Z.to_nat n → 0 ≤ n < 2 ^ 32 - 1 →
  <[Z.to_nat n := x00]>
    (got ++ drop (length got) (replicate (Z.to_nat ((n + 1) `mod` 2 ^ 32)) x00))
  = got ++ [x00].
Proof.
  intros Hlen Hn. rewrite Z.mod_small by lia.
  replace (Z.to_nat (n + 1)) with (S (length got)) by lia.
  rewrite drop_replicate.
  replace (S (length got) - length got)%nat with 1%nat by lia.
  simpl. rewrite <- Hlen. rewrite insert_app_r_alt by lia.
  by replace (length got - length got)%nat with 0%nat by lia.
Qed.

Section IoctlPaths.
Context `{Headers}.

(** Whichever way the marshalling part ends, the caller's memory and
    [private_data] are what they were; what is submitted is a complete table
    with result 0, and only CIOCGSESSION can end in [goto fail], with a
    non-zero result. *)
Lemma ioctl_marshal_shape cmd arg st :
  match ioctl_marshal cmd arg st with
  | Submit ret t st1 =>
      ret = 0 ∧ is_Some (virtqueue_add_sgs t)
      ∧ user st1 = user st ∧ private_data st1 = private_data st
  | Abort ret st1 =>
      cmd = CIOCGSESSION ∧ ret ≠ 0
      ∧ user st1 = user st ∧ private_data st1 = private_data st
  end.
Proof.
  destruct (decide (cmd = CIOCGSESSION)) as [-> | Hg].
  - unfold ioctl_marshal.
    cbv beta zeta iota delta [ioctl_common ioctl_msgs].
    case_decide; [|done].
    rewrite ?kstore_user, ?update_bytes_user, ?kstore_user.
    unfold copy_session_from_user. pose proof sizeof_session_op_pos.
    destruct (user st !! arg) as [[]|] eqn:Hu; cbv beta iota zeta;
      try (destruct sizeof_session_op eqn:?; [lia| |]; by guest_frame).
    rewrite ?kstore_user, ?update_bytes_user, ?kstore_user.
    destruct (copy_bytes_from_user _ _ _) as [ret got].
    case_decide as Hret.
    + by guest_frame.
    + guest_frame. split_and!; [|by eexists|done|done].
      destruct (decide (ret = 0)); [done|]. by destruct Hret.
  - destruct (decide (cmd = CIOCFSESSION)) as [-> | Hf].
    { rewrite ioctl_marshal_fsession. split_and!; [done|by eexists|..].
      - by destruct (ioctl_msgs_same_file "Hello HOST from ioctl CIOCFSESSION."
                       36 (ioctl_common CIOCFSESSION st).1
                       (ioctl_common CIOCFSESSION st).2) as [-> _].
      - by destruct (ioctl_msgs_same_file "Hello HOST from ioctl CIOCFSESSION."
                       36 (ioctl_common CIOCFSESSION st).1
                       (ioctl_common CIOCFSESSION st).2) as (_ & -> & _). }
    destruct (decide (cmd = CIOCCRYPT)) as [-> | Hc].
    { rewrite ioctl_marshal_crypt. split_and!; [done|by eexists|..].
      - by destruct (ioctl_msgs_same_file "Hello HOST from ioctl CIOCCRYPT."
                       33 (ioctl_common CIOCCRYPT st).1
                       (ioctl_common CIOCCRYPT st).2) as [-> _].
      - by destruct (ioctl_msgs_same_file "Hello HOST from ioctl CIOCCRYPT."
                       33 (ioctl_common CIOCCRYPT st).1
                       (ioctl_common CIOCCRYPT st).2) as (_ & -> & _). }
    rewrite ioctl_marshal_unknown by done.
    split_and!; [done|by eexists|done|done].
Qed.

Lemma ioctl_cleanup_temporaries cmd st :
  Forall (λ p, kernel (ioctl_cleanup cmd st) !! p = None) ioctl_temporaries
  ∧ (cmd = CIOCGSESSION → kernel (ioctl_cleanup cmd st) !! p_session_key = None).
Proof.
  unfold ioctl_cleanup, ioctl_temporaries. split.
  - repeat constructor; case_decide; simpl; by simplify_map_eq.
  - intros ->. case_decide; [|done]. simpl. by simplify_map_eq.
Qed.

Lemma ioctl_cleanup_private_data cmd st :
  private_data (ioctl_cleanup cmd st) = private_data st.
Proof. by destruct (ioctl_cleanup_same_file cmd st) as (_ & ? & _). Qed.

Lemma crypto_chrdev_ioctl_abort transport cmd arg st crdev fd ret st1 :
  file_open st crdev fd →
  ioctl_marshal cmd arg st = Abort ret st1 →
  crypto_chrdev_ioctl transport cmd arg st = Some (ret, ioctl_cleanup cmd st1).
Proof.
  intros (Hp & Hc & _) Hm. unfold crypto_chrdev_ioctl.
  rewrite Hp. simpl. unfold load_dev. rewrite Hc. simpl. by rewrite Hm.
Qed.


Lemma ioctl_marshal_gsession_key arg st s :
  copies_succeed (user st) arg s →
  ∃ t st1,
    ioctl_marshal CIOCGSESSION arg st = Submit 0 t st1
    ∧ virtqueue_add_sgs t = Some session_request
    ∧ kernel st1 !! p_session_key
      = Some (VBytes
          (<[Z.to_nat (keylen s) := x00]>
             ((copy_bytes_from_user (user st) (key s) (keylen s)).2
              ++ drop
                   (length (copy_bytes_from_user (user st) (key s) (keylen s)).2)
                   (replicate (Z.to_nat ((keylen s + 1) `mod` 2 ^ 32)) x00)))).
Proof.
  intros [Hs Hk]. unfold ioctl_marshal.
  cbv beta zeta iota delta [ioctl_common ioctl_msgs].
  case_decide; [|done].
  rewrite ?kstore_user, ?update_bytes_user, ?kstore_user.
  unfold copy_session_from_user. rewrite Hs. cbv beta iota zeta.
  rewrite ?kstore_user, ?update_bytes_user, ?kstore_user.
  destruct (copy_bytes_from_user _ _ _) as [ret got] eqn:Hcopy.
  simpl in Hk. subst ret. case_decide; [done|].
  eexists _, _. split; [done|]. split; [reflexivity|].
  simpl snd. erewrite update_bytes_lookup; [done|].
  simpl. by rewrite lookup_insert_eq.
Qed.

End IoctlPaths.

(** X6.  On every path of [crypto_chrdev_ioctl] on an open file, for every
    command and argument and every host that completes the request (also when
    a copy from the caller fails and nothing is submitted): the objects it
    allocated or had on its stack are gone afterwards, the key buffer too for
    CIOCGSESSION, and the caller's memory and [private_data] are what they
    were. *)
Theorem ioctl_frees_temporaries `{Headers}
    (served : crypto_device → VirtQueueElement → kmem → kmem)
    (cmd arg : Z) (st : guest) (crdev : crypto_device) (fd : Z) :
  file_open st crdev fd →
  ∃ ret st',
    crypto_chrdev_ioctl (completes served) cmd arg st = Some (ret, st')
    ∧ Forall (λ p, kernel st' !! p = None) ioctl_temporaries
    ∧ (cmd = CIOCGSESSION → kernel st' !! p_session_key = None)
    ∧ user st' = user st
    ∧ private_data st' = private_data st.
Proof.
  intros (Hp & Hc & _). unfold crypto_chrdev_ioctl.
  rewrite Hp. cbn [mbind option_bind]. unfold load_dev. rewrite Hc.
  cbn [mbind option_bind].
  pose proof (ioctl_marshal_shape cmd arg st) as Hshape.
  destruct (ioctl_marshal cmd arg st) as [ret t st1 | ret st1].
  - destruct Hshape as (-> & [elem ->] & Hu & Hpd).
    cbn [mbind option_bind completes].
    eexists _, _. split; [done|].
    destruct (ioctl_cleanup_temporaries cmd
                (set_kernel (served crdev elem (kernel st1)) st1)) as [? ?].
    rewrite ioctl_cleanup_user, ioctl_cleanup_private_data. simpl.
    by rewrite Hu, Hpd.
  - destruct Hshape as (_ & _ & Hu & Hpd).
    eexists _, _. split; [done|].
    destruct (ioctl_cleanup_temporaries cmd st1) as [? ?].
    by rewrite ioctl_cleanup_user, ioctl_cleanup_private_data, Hu, Hpd.
Qed.

Lemma ioctl_frees_temporaries_witness :
  ∃ ret st',
    crypto_chrdev_ioctl (H := lab_headers) (completes assigning_host)
      3224396646 4096 example_session_state = Some (ret, st')
    ∧ Forall (λ p, kernel st' !! p = None) ioctl_temporaries
    ∧ (3224396646 = CIOCGSESSION (Headers := lab_headers) →
       kernel st' !! p_session_key = None)
    ∧ user st' = user example_session_state
    ∧ private_data st' = private_data example_session_state.
Proof.
  apply (ioctl_frees_temporaries (H := lab_headers) assigning_host 3224396646
           4096 example_session_state example_device 3).
  by repeat split.
Defined.

(** X7.  When the caller's session descriptor cannot be read,
    [crypto_chrdev_ioctl] with CIOCGSESSION returns what [copy_from_user]
    returned, the number of bytes not copied: a positive value, not a
    negative error code.  Nothing is submitted (the result is the same for
    every transport) and the caller's memory is unchanged. *)
Theorem ioctl_descriptor_fault `{Headers}
    (transport : crypto_device → VirtQueueElement → kmem → option kmem)
    (arg : Z) (st : guest) (crdev : crypto_device) (fd : Z) :
  file_open st crdev fd →
  (∀ s, user st !! arg ≠ Some (VSessionOp s)) →
  ∃ st',
    crypto_chrdev_ioctl transport CIOCGSESSION arg st
      = Some (sizeof_session_op, st')
    ∧ 0 < sizeof_session_op
    ∧ user st' = user st.
Proof.
  intros Hopen Hno.
  destruct (ioctl_marshal_gsession_fault arg st Hno) as [st1 Hm].
  pose proof (ioctl_marshal_shape CIOCGSESSION arg st) as Hshape.
  rewrite Hm in Hshape. destruct Hshape as (_ & _ & Hu & _).
  eexists. split; [by eapply crypto_chrdev_ioctl_abort|].
  split; [apply sizeof_session_op_pos|]. by rewrite ioctl_cleanup_user.
Qed.

Lemma ioctl_descriptor_fault_witness :
  ∃ st',
    crypto_chrdev_ioctl (H := lab_headers) (λ _ _ _, None) 3224396646 4096
      example_open_state = Some (48, st')
    ∧ 0 < 48
    ∧ user st' = user example_open_state.
Proof.
  apply (ioctl_descriptor_fault (H := lab_headers) (λ _ _ _, None) 4096
           example_open_state example_device 3).
  - by repeat split.
  - intros s Hs. vm_compute in Hs. discriminate Hs.
Defined.



(** X9.  When the descriptor and [keylen] key bytes are readable and
    [keylen + 1] does not wrap as an unsigned 32-bit value, the key buffer of
    the CIOCGSESSION case holds exactly the first [keylen] bytes of the
    caller's key followed by one NUL byte at the time of submission. *)
Theorem get_session_key_buffer `{Headers} (arg : Z) (st : guest)
    (s : session_op) (a : Z) (bs : list byte) :
  user st !! arg = Some (VSessionOp s) →
  key s = UserAddr a →
  user st !! a = Some (VBytes bs) →
  0 ≤ keylen s ≤ Z.of_nat (length bs) →
  keylen s < 2 ^ 32 - 1 →
  ∃ t st1,
    ioctl_marshal CIOCGSESSION arg st = Submit 0 t st1
    ∧ virtqueue_add_sgs t = Some session_request
    ∧ kernel st1 !! p_session_key
      = Some (VBytes (take (Z.to_nat (keylen s)) bs ++ [x00])).
Proof.
  intros Hs Hkey Ha Hlen Hmax.
  pose proof (copy_bytes_from_user_bytes (user st) a (keylen s) bs Ha Hlen)
    as Hc.
  rewrite <- Hkey in Hc.
  destruct (ioctl_marshal_gsession_key arg st s) as (t & st1 & Hm & Ht & Hk).
  { split; [done|]. by rewrite Hc. }
  exists t, st1. split; [done|]. split; [done|].
  rewrite Hk, Hc. simpl. do 2 f_equal.
  apply session_key_bytes; [|lia]. rewrite length_take. lia.
Qed.

Lemma get_session_key_buffer_witness :
  ∃ t st1,
    ioctl_marshal (H := lab_headers) 3224396646 4096 example_session_state
      = Submit 0 t st1
    ∧ virtqueue_add_sgs t = Some (session_request (H := lab_headers))
    ∧ kernel st1 !! p_session_key
      = Some (VBytes (take (Z.to_nat 16)
                        (list_byte_of_string "0123456789abcdef") ++ [x00])).
Proof.
  apply (get_session_key_buffer (H := lab_headers) 4096 example_session_state
           example_session 8192 (list_byte_of_string "0123456789abcdef")).
  - reflexivity.
  - reflexivity.
  - reflexivity.
  - simpl. lia.
  - simpl. lia.
Defined.

(** X10.  A key length of 0 is accepted whatever the descriptor's [key]
    pointer is, readable or not: the CIOCGSESSION request is submitted as for
    any other key and the key buffer is the single NUL byte. *)
Theorem get_session_empty_key `{Headers} (arg : Z) (st : guest)
    (s : session_op) :
  user st !! arg = Some (VSessionOp s) →
  keylen s = 0 →
  ∃ t st1,
    ioctl_marshal CIOCGSESSION arg st = Submit 0 t st1
    ∧ virtqueue_add_sgs t = Some session_request
    ∧ kernel st1 !! p_session_key = Some (VBytes [x00]).
Proof.
  intros Hs H0.
  assert (copy_bytes_from_user (user st) (key s) (keylen s) = (0, [])) as Hc.
  { unfold copy_bytes_from_user. by case_decide. }
  destruct (ioctl_marshal_gsession_key arg st s) as (t & st1 & Hm & Ht & Hk).
  { split; [done|]. by rewrite Hc. }
  exists t, st1. split; [done|]. split; [done|].
  rewrite Hk, Hc, H0. reflexivity.
Qed.

Lemma get_session_empty_key_witness :
  ∃ t st1,
    ioctl_marshal (H := lab_headers) 3224396646 4096 empty_key_state
      = Submit 0 t st1
    ∧ virtqueue_add_sgs t = Some (session_request (H := lab_headers))
    ∧ kernel st1 !! p_session_key = Some (VBytes [x00]).
Proof.
  apply (get_session_empty_key (H := lab_headers) 4096 empty_key_state
           {| keylen := 0; key := UserAddr 12345; ses := 0 |});
    reflexivity.
Defined.

(** ** The array of regions *)

Lemma sgs_fill_outs (n : nat) (outs : list scatterlist) :
  (length outs ≤ n)%nat →
  foldl (λ t sg, sgs_add_out sg t) (sg_table_new n) outs
  = {| sgs := (Some <$> outs) ++ replicate (n - length outs) None;
       num_out := length outs; num_in := 0 |}.
Proof.
  induction outs as [|sg outs IH] using rev_ind; intros Hn.
  - simpl. unfold sg_table_new. by rewrite Nat.sub_0_r.
  - rewrite length_app in Hn. simpl in Hn.
    rewrite foldl_app. simpl. rewrite IH by lia.
    unfold sgs_add_out. simpl. rewrite length_app. simpl. f_equal; [|lia].
    rewrite fmap_app. simpl.
    replace (n - length outs)%nat with (S (n - (length outs + 1))) by lia.
    simpl. rewrite insert_app_r_alt by (rewrite length_fmap; lia).
    rewrite length_fmap, Nat.sub_diag. simpl.
    by rewrite <- app_assoc.
Qed.

Lemma sgs_fill_ins (n : nat) (outs ins : list scatterlist) :
  (length outs + length ins ≤ n)%nat →
  foldl (λ t sg, sgs_add_in sg t)
    {| sgs := (Some <$> outs) ++ replicate (n - length outs) None;
       num_out := length outs; num_in := 0 |} ins
  = {| sgs := (Some <$> outs) ++ (Some <$> ins)
              ++ replicate (n - length outs - length ins) None;
       num_out := length outs; num_in := length ins |}.
Proof.
  induction ins as [|sg ins IH] using rev_ind; intros Hn.
  - simpl. by rewrite Nat.sub_0_r.
  - rewrite length_app in Hn. simpl in Hn.
    rewrite foldl_app. simpl. rewrite IH by lia.
    unfold sgs_add_in. simpl. rewrite length_app. simpl. f_equal; [|lia].
    rewrite fmap_app. simpl.
    replace (n - length outs - length ins)%nat
      with (S (n - length outs - (length ins + 1))) by lia.
    simpl. rewrite insert_app_r_alt by (rewrite length_fmap; lia).
    rewrite length_fmap.
    replace (length outs + length ins - length outs)%nat
      with (length ins) by lia.
    rewrite insert_app_r_alt by (rewrite length_fmap; lia).
    rewrite length_fmap, Nat.sub_diag. simpl.
    by rewrite <- app_assoc.
Qed.

Lemma mapM_id_Some {A} (l : list A) : mapM id (Some <$> l) = Some l.
Proof.
  induction l as [|x l IH]; [done|].
  rewrite fmap_cons. cbn [mapM id mbind option_bind]. rewrite IH. done.
Qed.

(** The arrays of the three guest functions are filled in this order. *)
Lemma guest_tables_are_fills `{Headers} hello k cmd st :
  (ioctl_common cmd st).1
  = sgs_fill 9 [sg_init_one p_syscall_type sizeof_int;
                sg_init_one p_host_fd sizeof_int;
                sg_init_one p_cmd sizeof_int] []
  ∧ (ioctl_msgs hello k (ioctl_common cmd st).1 (ioctl_common cmd st).2).1
    = sgs_fill 9 [sg_init_one p_syscall_type sizeof_int;
                  sg_init_one p_host_fd sizeof_int;
                  sg_init_one p_cmd sizeof_int;
                  sg_init_one p_output_msg MSG_LEN]
                 [sg_init_one p_input_msg MSG_LEN].
Proof. split; reflexivity. Qed.

(** X11.  Regions added to the array outputs first and inputs after, as
    [sgs[num_out++]] and [sgs[num_out + num_in++]] do, reach the host in
    exactly that order, the outputs as the readable regions and the inputs as
    the writable ones, whenever the array has room for them all. *)
Theorem virtqueue_add_sgs_fill (n : nat) (outs ins : list scatterlist) :
  (length outs + length ins ≤ n)%nat →
  virtqueue_add_sgs (sgs_fill n outs ins)
  = Some {| out_sg := sg_to_iovec <$> outs; in_sg := sg_to_iovec <$> ins |}.
Proof.
  intros Hn. unfold sgs_fill. rewrite sgs_fill_outs by lia.
  rewrite (sgs_fill_ins n) by lia. unfold virtqueue_add_sgs. simpl.
  case_decide as Hlen.
  2:{ destruct Hlen. rewrite !length_app, !length_fmap, length_replicate. lia. }
  rewrite take_app_length' by (by rewrite length_fmap).
  rewrite mapM_id_Some. simpl.
  rewrite drop_app_length' by (by rewrite length_fmap).
  rewrite take_app_length' by (by rewrite length_fmap).
  by rewrite mapM_id_Some.
Qed.

Lemma virtqueue_add_sgs_fill_witness :
  virtqueue_add_sgs
    (sgs_fill 9 [sg_init_one p_syscall_type 4; sg_init_one p_host_fd 4;
                 sg_init_one p_cmd 4; sg_init_one p_output_msg 100]
                [sg_init_one p_input_msg 100])
  = Some message_request.
Proof.
  apply (virtqueue_add_sgs_fill 9
           [sg_init_one p_syscall_type 4; sg_init_one p_host_fd 4;
            sg_init_one p_cmd 4; sg_init_one p_output_msg 100]
           [sg_init_one p_input_msg 100]).
  simpl. lia.
Defined.

(** ** The dispatcher, command by command *)

Lemma region_elem_of (sg : list iovec) (i : nat) (p : buf) :
  region sg i = Some p → p ∈ fmap iov_base sg.
Proof.
  unfold region. intros Hr.
  destruct (sg !! i) as [r|] eqn:Hl; simplify_eq/=.
  apply list_elem_of_fmap. exists r. split; [done|].
  by eapply list_elem_of_lookup_2.
Qed.

Section HostIoctl.
Context `{Headers} (dev : crypto_backend).

Lemma vq_handle_output_ioctl elem m fd cmd :
  ioctl_header elem m fd cmd →
  vq_handle_output dev (Some elem) m
  = '(m', evs) ← handle_ioctl dev elem m;
    Some (m', evs ++ [EvPush elem 0; EvNotify]).
Proof.
  intros (H0 & _ & _). unfold vq_handle_output, handle_syscall.
  destruct (region (out_sg elem) 0) as [p|]; simpl in *; [|done].
  rewrite H0. simpl.
  pose proof type_open_ioctl. pose proof type_close_ioctl.
  repeat case_decide; congruence.
Qed.

Lemma handle_ioctl_header_loads elem m fd cmd :
  ioctl_header elem m fd cmd →
  ∃ p1 p2, region (out_sg elem) 1 = Some p1 ∧ region (out_sg elem) 2 = Some p2
           ∧ load_int m p1 = Some fd ∧ load_uint m p2 = Some cmd.
Proof.
  intros (_ & H1 & H2).
  destruct (region (out_sg elem) 1) as [p1|]; simpl in *; [|done].
  destruct (region (out_sg elem) 2) as [p2|]; simpl in *; [|done].
  by exists p1, p2.
Qed.

End HostIoctl.

(** X12.  CIOCGSESSION at the host, on an element that has the three
    writable regions it indexes: the real ioctl is called once, with the
    handle of readable region 1, on the descriptor of writable region 0 whose
    [key] has been replaced by the base of writable region 1 and whose other
    members are as sent; what the ioctl returns, zero or not, is then stored
    in writable region 2, and the element is pushed and notified. *)
Theorem host_get_session_patches_key `{Headers} (dev : crypto_backend)
    (elem : VirtQueueElement) (m : kmem) (fd : Z)
    (sess pkey host_return_val : buf) (s : session_op) :
  ioctl_header elem m fd CIOCGSESSION →
  region (in_sg elem) 0 = Some sess →
  region (in_sg elem) 1 = Some pkey →
  region (in_sg elem) 2 = Some host_return_val →
  m !! sess = Some (VSessionOp s) →
  let patched :=
    <[sess := VSessionOp {| keylen := keylen s; key := IovBase pkey;
                            ses := ses s |}]> m in
  vq_handle_output dev (Some elem) m
  = Some (<[host_return_val :=
              VInt (host_ioctl dev fd CIOCGSESSION sess patched).2]>
            (host_ioctl dev fd CIOCGSESSION sess patched).1,
          [EvIoctl fd CIOCGSESSION sess; EvPush elem 0; EvNotify]).
Proof.
  intros Hh H0 H1 H2 Hs patched.
  rewrite (vq_handle_output_ioctl dev elem m fd CIOCGSESSION Hh).
  destruct (handle_ioctl_header_loads elem m fd _ Hh)
    as (p1 & p2 & R1 & R2 & L1 & L2).
  unfold handle_ioctl. rewrite R1, R2. simpl. rewrite L1, L2. simpl.
  case_decide; [|done]. rewrite H0, H1, H2. simpl.
  unfold store_session_key. rewrite Hs. simpl. fold patched.
  by destruct (host_ioctl dev fd CIOCGSESSION sess patched).
Qed.

Lemma host_get_session_patches_key_witness :
  vq_handle_output (H := lab_headers) failing_backend
    (Some host_session_request) host_session_memory
  = Some (<[p_input_msg := VInt (-1)]>
            (<[p_copied_session :=
                 VSessionOp {| keylen := 16; key := IovBase p_session_key;
                               ses := 0 |}]> host_session_memory),
          [EvIoctl 3 3224396646 p_copied_session;
           EvPush host_session_request 0; EvNotify]).
Proof.
  apply (host_get_session_patches_key (H := lab_headers) failing_backend
           host_session_request host_session_memory 3 p_copied_session
           p_session_key p_input_msg example_session);
    by repeat split.
Defined.

(** X13.  CIOCFSESSION at the host, on an element that has the two writable
    regions it indexes: the real ioctl is called once, with the handle of
    readable region 1 and the base of writable region 0 as the session
    identifier's address, on the memory as it is; what it returns is stored in
    writable region 1, and the element is pushed and notified. *)
Theorem host_free_session_passes_region `{Headers} (dev : crypto_backend)
    (elem : VirtQueueElement) (m : kmem) (fd : Z) (pses host_return_val : buf) :
  ioctl_header elem m fd CIOCFSESSION →
  region (in_sg elem) 0 = Some pses →
  region (in_sg elem) 1 = Some host_return_val →
  vq_handle_output dev (Some elem) m
  = Some (<[host_return_val :=
              VInt (host_ioctl dev fd CIOCFSESSION pses m).2]>
            (host_ioctl dev fd CIOCFSESSION pses m).1,
          [EvIoctl fd CIOCFSESSION pses; EvPush elem 0; EvNotify]).
Proof.
  intros Hh H0 H1.
  rewrite (vq_handle_output_ioctl dev elem m fd CIOCFSESSION Hh).
  destruct (handle_ioctl_header_loads elem m fd _ Hh)
    as (p1 & p2 & R1 & R2 & L1 & L2).
  unfold handle_ioctl. rewrite R1, R2. simpl. rewrite L1, L2. simpl.
  pose proof gsession_fsession.
  case_decide; [congruence|]. case_decide; [|done]. rewrite H0, H1. simpl.
  by destruct (host_ioctl dev fd CIOCFSESSION pses m).
Qed.

Lemma host_free_session_passes_region_witness :
  vq_handle_output (H := lab_headers) failing_backend
    (Some host_free_request) host_free_memory
  = Some (<[p_input_msg := VInt (-1)]> host_free_memory,
          [EvIoctl 3 1074029415 p_copied_session;
           EvPush host_free_request 0; EvNotify]).
Proof.
  apply (host_free_session_passes_region (H := lab_headers) failing_backend
           host_free_request host_free_memory 3 p_copied_session p_input_msg);
    by repeat split.
Defined.

(** X14.  CIOCCRYPT at the host, on an element that has the five writable
    regions it indexes: the real ioctl is called once on the crypt descriptor
    of writable region 0, whose [src], [dst] and [iv] have been replaced by
    the bases of writable regions 1, 2 and 3 and whose other members are as
    sent; what it returns is stored in writable region 4, and the element is
    pushed and notified. *)
Theorem host_crypt_patches_pointers `{Headers} (dev : crypto_backend)
    (elem : VirtQueueElement) (m : kmem) (fd : Z)
    (crypt psrc pdst piv host_return_val : buf) (c : crypt_op) :
  ioctl_header elem m fd CIOCCRYPT →
  region (in_sg elem) 0 = Some crypt →
  region (in_sg elem) 1 = Some psrc →
  region (in_sg elem) 2 = Some pdst →
  region (in_sg elem) 3 = Some piv →
  region (in_sg elem) 4 = Some host_return_val →
  m !! crypt = Some (VCryptOp c) →
  let patched :=
    <[crypt := VCryptOp {| crypt_ses := crypt_ses c; len := len c;
                           src := IovBase psrc; dst := IovBase pdst;
                           iv := IovBase piv |}]> m in
  vq_handle_output dev (Some elem) m
  = Some (<[host_return_val :=
              VInt (host_ioctl dev fd CIOCCRYPT crypt patched).2]>
            (host_ioctl dev fd CIOCCRYPT crypt patched).1,
          [EvIoctl fd CIOCCRYPT crypt; EvPush elem 0; EvNotify]).
Proof.
  intros Hh H0 H1 H2 H3 H4 Hc patched.
  rewrite (vq_handle_output_ioctl dev elem m fd CIOCCRYPT Hh).
  destruct (handle_ioctl_header_loads elem m fd _ Hh)
    as (p1 & p2 & R1 & R2 & L1 & L2).
  unfold handle_ioctl. rewrite R1, R2. simpl. rewrite L1, L2. simpl.
  pose proof gsession_crypt. pose proof fsession_crypt.
  case_decide; [congruence|]. case_decide; [congruence|]. case_decide; [|done].
  rewrite H0, H1, H2, H3, H4. simpl.
  unfold store_crypt_pointers. rewrite Hc. simpl. fold patched.
  by destruct (host_ioctl dev fd CIOCCRYPT crypt patched).
Qed.

Lemma host_crypt_patches_pointers_witness :
  vq_handle_output (H := lab_headers) failing_backend
    (Some host_crypt_request) host_crypt_memory
  = Some (<[p_crof := VInt (-1)]>
            (<[p_copied_session :=
                 VCryptOp {| crypt_ses := 42; len := 12;
                             src := IovBase p_output_msg;
                             dst := IovBase p_input_msg;
                             iv := IovBase p_session_key |}]>
               host_crypt_memory),
          [EvIoctl 3 3224396648 p_copied_session;
           EvPush host_crypt_request 0; EvNotify]).
Proof.
  apply (host_crypt_patches_pointers (H := lab_headers) failing_backend
           host_crypt_request host_crypt_memory 3 p_copied_session
           p_output_msg p_input_msg p_session_key p_crof
           {| crypt_ses := 42; len := 12; src := UserAddr 0;
              dst := UserAddr 0; iv := UserAddr 0 |});
    by repeat split.
Defined.

(** X15.  An element whose syscall type is none of OPEN, CLOSE and IOCTL is
    pushed back and notified with no call of the real device and the memory
    untouched, whatever else it carries (it needs no region beyond the
    first). *)
Theorem host_unknown_syscall_type `{Headers} (dev : crypto_backend)
    (elem : VirtQueueElement) (m : kmem) (sc : Z) :
  (region (out_sg elem) 0 ≫= load_uint m) = Some sc →
  sc ≠ VIRTIO_CRYPTODEV_SYSCALL_TYPE_OPEN →
  sc ≠ VIRTIO_CRYPTODEV_SYSCALL_TYPE_CLOSE →
  sc ≠ VIRTIO_CRYPTODEV_SYSCALL_TYPE_IOCTL →
  vq_handle_output dev (Some elem) m
  = Some (m, [EvPush elem 0; EvNotify]).
Proof.
  intros H0 ???. unfold vq_handle_output, handle_syscall.
  destruct (region (out_sg elem) 0) as [p|]; simpl in *; [|done].
  rewrite H0. simpl. by repeat case_decide.
Qed.

Lemma host_unknown_syscall_type_witness :
  vq_handle_output (H := lab_headers) working_backend
    (Some {| out_sg := [iov p_syscall_type 4]; in_sg := [] |})
    host_unknown_memory
  = Some (host_unknown_memory,
          [EvPush {| out_sg := [iov p_syscall_type 4]; in_sg := [] |} 0;
           EvNotify]).
Proof.
  apply (host_unknown_syscall_type (H := lab_headers) working_backend
           {| out_sg := [iov p_syscall_type 4]; in_sg := [] |}
           host_unknown_memory 9);
    [reflexivity|done|done|done].
Defined.

(** X16.  With a real device that itself leaves the shared memory alone,
    every object that is not the base of one of the element's writable
    regions is the same after the dispatcher as before: the dispatcher's own
    stores (the handle, the patched pointers, the status) go through writable
    regions only.  And it calls the real device at most once per element. *)
Theorem dispatcher_writes_only_writable_regions `{Headers}
    (dev : crypto_backend) (elem : VirtQueueElement) (m m' : kmem)
    (evs : list event) (p : buf) :
  (∀ fd cmd arg k, (host_ioctl dev fd cmd arg k).1 = k) →
  vq_handle_output dev (Some elem) m = Some (m', evs) →
  ¬ (p ∈ fmap iov_base (in_sg elem)) →
  m' !! p = m !! p ∧ (device_calls evs ≤ 1)%nat.
Proof.
  intros Hdev Hv Hp. unfold vq_handle_output in Hv.
  destruct (handle_syscall dev elem m) as [[m1 evs1]|] eqn:Hh; [|done].
  simpl in Hv. injection Hv as <- <-.
  assert (m1 !! p = m !! p ∧ (device_calls evs1 ≤ 1)%nat) as [Hm Hc].
  2:{ split; [done|]. unfold device_calls in *.
      rewrite List.filter_app, length_app. simpl. lia. }
  unfold handle_syscall in Hh.
  destruct (region (out_sg elem) 0) as [p0|]; simplify_eq/=.
  destruct (load_uint m p0) as [sc|]; simplify_eq/=.
  repeat case_decide.
  - unfold handle_open in Hh.
    destruct (region (in_sg elem) 0) as [q|] eqn:Hq; simplify_eq/=.
    split; [|unfold device_calls; simpl; lia].
    unfold store_int. apply lookup_insert_ne. intros ->.
    by apply Hp, (region_elem_of _ 0).
  - unfold handle_close in Hh.
    destruct (region (out_sg elem) 1) as [q|]; simplify_eq/=.
    destruct (load_int m q); simplify_eq/=.
    split; [done|unfold device_calls; simpl; lia].
  - unfold handle_ioctl in Hh.
    destruct (region (out_sg elem) 1) as [p1|]; simplify_eq/=.
    destruct (region (out_sg elem) 2) as [p2|]; simplify_eq/=.
    destruct (load_int m p1) as [fd|]; simplify_eq/=.
    destruct (load_uint m p2) as [c|]; simplify_eq/=.
    repeat case_decide.
    + destruct (region (in_sg elem) 0) as [sess|] eqn:E0; simplify_eq/=.
      destruct (region (in_sg elem) 1) as [pkey|] eqn:E1; simplify_eq/=.
      destruct (region (in_sg elem) 2) as [rv|] eqn:E2; simplify_eq/=.
      unfold store_session_key in Hh.
      destruct (m !! sess) as [[]|] eqn:Hs; simplify_eq/=.
      pose proof (Hdev fd CIOCGSESSION sess
        (<[sess := VSessionOp {| keylen := keylen s; key := IovBase pkey;
                                 ses := ses s |}]> m)) as Hk.
      destruct (host_ioctl dev _ _ _ _) as [k r]. simplify_eq/=.
      split; [|unfold device_calls; simpl; lia].
      unfold store_int. rewrite !lookup_insert_ne; [done|..]; intros ->.
      * by apply Hp, (region_elem_of _ 0).
      * by apply Hp, (region_elem_of _ 2).
    + destruct (region (in_sg elem) 0) as [pses|] eqn:E0; simplify_eq/=.
      destruct (region (in_sg elem) 1) as [rv|] eqn:E1; simplify_eq/=.
      pose proof (Hdev fd CIOCFSESSION pses m) as Hk.
      destruct (host_ioctl dev _ _ _ _) as [k r]. simplify_eq/=.
      split; [|unfold device_calls; simpl; lia].
      unfold store_int. rewrite lookup_insert_ne; [done|]; intros ->.
      by apply Hp, (region_elem_of _ 1).
    + destruct (region (in_sg elem) 0) as [crypt|] eqn:E0; simplify_eq/=.
      destruct (region (in_sg elem) 1) as [psrc|] eqn:E1; simplify_eq/=.
      destruct (region (in_sg elem) 2) as [pdst|] eqn:E2; simplify_eq/=.
      destruct (region (in_sg elem) 3) as [piv|] eqn:E3; simplify_eq/=.
      destruct (region (in_sg elem) 4) as [rv|] eqn:E4; simplify_eq/=.
      unfold store_crypt_pointers in Hh.
      destruct (m !! crypt) as [[]|] eqn:Hs; simplify_eq/=.
      pose proof (Hdev fd CIOCCRYPT crypt
        (<[crypt := VCryptOp {| crypt_ses := crypt_ses c; len := len c;
             src := IovBase psrc; dst := IovBase pdst;
             iv := IovBase piv |}]> m)) as Hk.
      destruct (host_ioctl dev _ _ _ _) as [k r]. simplify_eq/=.
      split; [|unfold device_calls; simpl; lia].
      unfold store_int. rewrite !lookup_insert_ne; [done|..]; intros ->.
      * by apply Hp, (region_elem_of _ 0).
      * by apply Hp, (region_elem_of _ 4).
    + simplify_eq/=. split; [done|unfold device_calls; simpl; lia].
  - simplify_eq/=. split; [done|unfold device_calls; simpl; lia].
Qed.

Lemma dispatcher_writes_only_writable_regions_witness :
  ∃ m' evs,
    vq_handle_output (H := lab_headers) working_backend
      (Some host_session_request) host_session_memory = Some (m', evs)
    ∧ m' !! p_host_fd = host_session_memory !! p_host_fd
    ∧ (device_calls evs ≤ 1)%nat.
Proof.
  eexists _, _. split; [reflexivity|].
  apply (dispatcher_writes_only_writable_regions (H := lab_headers)
           working_backend host_session_request host_session_memory).
  - intros. reflexivity.
  - reflexivity.
  - simpl. intros Hin.
    repeat (apply elem_of_cons in Hin as [Hin|Hin]; [discriminate Hin|]).
    by apply elem_of_nil in Hin.
Defined.

(** ** Registering the character device *)

Lemma chrdevs_eq (s1 s2 : chrdevs) :
  chrdev_regions s1 = chrdev_regions s2 → cdev_live s1 = cdev_live s2 → s1 = s2.
Proof. destruct s1, s2. simpl. by intros -> ->. Qed.

(** X17.  On a kernel where the driver's region is free,
    [crypto_chrdev_init] returns 0 exactly when both the region registration
    and [cdev_add] succeed, and then the region is registered and the cdev is
    live for it; otherwise it returns the negative code of the call that
    failed and leaves the kernel exactly as it was: a region registered
    before a failing [cdev_add] is unregistered again. *)
Theorem crypto_chrdev_init_unwinds (major count : Z)
    (region_result add_result : kresult) (s : chrdevs) :
  (MKDEV major 0, count) ∉ chrdev_regions s →
  let '(ret, s') := crypto_chrdev_init major count region_result add_result s in
  (ret = 0 ↔ region_result = KSuccess ∧ add_result = KSuccess)
  ∧ (ret ≠ 0 → ret < 0 ∧ s' = s
               ∧ ret = (if region_result is KFailure _ then kret region_result
                        else kret add_result))
  ∧ (ret = 0 →
     chrdev_regions s' = {[ (MKDEV major 0, count) ]} ∪ chrdev_regions s
     ∧ cdev_live s' = Some (MKDEV major 0, count)).
Proof.
  intros Hfree. unfold crypto_chrdev_init.
  destruct region_result as [|e1]; simpl.
  - destruct add_result as [|e2]; simpl.
    + split_and!; [by split| done | done].
    + split_and!.
      * split; [lia|]. by intros [_ ?].
      * intros _. split_and!; [lia| |done].
        apply chrdevs_eq; [|done]. simpl.
        apply set_eq. intros x.
        rewrite elem_of_difference, elem_of_union, elem_of_singleton.
        split; [by intros [[?|?] ?]|]. intros Hx. split; [by right|].
        by intros ->.
      * lia.
  - split_and!.
    + split; [lia|]. by intros [? _].
    + intros _. split_and!; [lia|done|done].
    + lia.
Qed.

Lemma crypto_chrdev_init_unwinds_witness :
  let '(ret, s') := crypto_chrdev_init 60 32 KSuccess (KFailure 12) no_chrdevs in
  (ret = 0 ↔ KSuccess = KSuccess ∧ KFailure 12 = KSuccess)
  ∧ (ret ≠ 0 → ret < 0 ∧ s' = no_chrdevs ∧ ret = kret (KFailure 12))
  ∧ (ret = 0 →
     chrdev_regions s' = {[ (MKDEV 60 0, 32) ]} ∪ chrdev_regions no_chrdevs
     ∧ cdev_live s' = Some (MKDEV 60 0, 32)).
Proof.
  apply (crypto_chrdev_init_unwinds 60 32 KSuccess (KFailure 12) no_chrdevs).
  simpl. apply not_elem_of_empty.
Defined.

(** X18.  On a kernel where the driver's region is free and its cdev not
    live, a successful [crypto_chrdev_init] followed by
    [crypto_chrdev_destroy] leaves the kernel exactly as it was. *)
Theorem crypto_chrdev_init_destroy (major count : Z) (s : chrdevs) :
  (MKDEV major 0, count) ∉ chrdev_regions s →
  cdev_live s = None →
  (crypto_chrdev_init major count KSuccess KSuccess s).1 = 0
  ∧ crypto_chrdev_destroy major count
      (crypto_chrdev_init major count KSuccess KSuccess s).2 = s.
Proof.
  intros Hfree Hnone. split; [done|].
  apply chrdevs_eq; simpl; [|done].
  apply set_eq. intros x.
  rewrite elem_of_difference, elem_of_union, elem_of_singleton.
  split; [by intros [[?|?] ?]|]. intros Hx. split; [by right|].
  by intros ->.
Qed.

Lemma crypto_chrdev_init_destroy_witness :
  (crypto_chrdev_init 60 32 KSuccess KSuccess no_chrdevs).1 = 0
  ∧ crypto_chrdev_destroy 60 32
      (crypto_chrdev_init 60 32 KSuccess KSuccess no_chrdevs).2 = no_chrdevs.
Proof.
  apply (crypto_chrdev_init_destroy 60 32 no_chrdevs).
  - simpl. apply not_elem_of_empty.
  - reflexivity.
Defined.
